(** * isol8 benchmark-log scripts: a shallow embedding

    The two scripts [scripts/parse-bench-output.py] and
    [scripts/parse-bench-summary.py] read [bench-output.log], scan it line
    by line for the benchmark table and render what they found.  This file
    embeds both scripts, statement by statement, and proves the properties
    the specification states about them. *)

From Stdlib Require Import Ascii String DecimalString.
From Stdlib Require Import List Bool Arith NArith Lia.
Import ListNotations.

(** ** Python strings

    A Python [str] is a sequence of Unicode code points.  A code point is a
    number, a string a list of them. *)

Definition char := N.
Definition str := list char.

(** An ASCII literal of the source as a [str]. *)
Definition lit (s : string) : str :=
  List.map N_of_ascii (list_ascii_of_string s).

Arguments lit : simpl never.

Definition nl : char := 10%N.
Definition space : char := 32%N.
Definition pipe : char := 124%N.

Module Py.

(** Truth value of a string or list: non-empty. *)
Definition truthy {A : Type} (s : list A) : bool :=
  match s with
  | [] => false
  | _ :: _ => true
  end.

(** [str.isspace] on one code point, the table of CPython's
    [_PyUnicode_IsWhitespace]: these are the characters [str.strip()]
    removes. *)
Definition isspace (c : char) : bool :=
  ((9 <=? c) && (c <=? 13) ||
   (28 <=? c) && (c <=? 32) ||
   (c =? 133) || (c =? 160) || (c =? 5760) ||
   (8192 <=? c) && (c <=? 8202) ||
   (c =? 8232) || (c =? 8233) || (c =? 8239) || (c =? 8287) ||
   (c =? 12288))%N.

Section DropWhile.
Variable A : Type.
Variable p : A -> bool.

Fixpoint dropwhile (s : list A) : list A :=
  match s with
  | [] => []
  | c :: s' => if p c then dropwhile s' else s
  end.

(** Removing from the right end: the longest suffix of [p]-elements. *)
Fixpoint dropwhile_end (s : list A) : list A :=
  match s with
  | [] => []
  | c :: s' =>
      match dropwhile_end s' with
      | [] => if p c then [] else [c]
      | t => c :: t
      end
  end.
End DropWhile.

Arguments dropwhile {A} p s.
Arguments dropwhile_end {A} p s.

Definition lstrip (s : str) : str := dropwhile isspace s.
Definition rstrip (s : str) : str := dropwhile_end isspace s.

(** [s.strip()] *)
Definition strip (s : str) : str := rstrip (lstrip s).

(** [a == b] on strings. *)
Fixpoint eqb (a b : str) : bool :=
  match a, b with
  | [], [] => true
  | x :: a', y :: b' => N.eqb x y && eqb a' b'
  | _, _ => false
  end.

Fixpoint startswith (pat s : str) : bool :=
  match pat, s with
  | [], _ => true
  | x :: pat', c :: s' => N.eqb x c && startswith pat' s'
  | _ :: _, [] => false
  end.

(** [pat in s]: [pat] occurs in [s] as a substring. *)
Fixpoint contains (pat s : str) : bool :=
  startswith pat s ||
  match s with
  | [] => false
  | _ :: s' => contains pat s'
  end.

(** [s.split(sep)] for a one-character separator, which is what both call
    sites pass.  The result is never empty: [''.split(sep) == ['']]. *)
Fixpoint split (sep : char) (s : str) : list str :=
  match s with
  | [] => [[]]
  | c :: s' =>
      if N.eqb c sep then [] :: split sep s'
      else match split sep s' with
           | [] => [[c]]
           | p :: ps => (c :: p) :: ps
           end
  end.

(** [format(s, "w")] for a string [s] and a width [w], as in the
    replacement field [{r[0]:7}]: strings are left-aligned and padded
    with spaces to the width, and never cut. *)
Definition format_width (w : nat) (s : str) : str :=
  s ++ repeat space (w - length s).

(** [str(n)] for a non-negative integer. *)
Definition str_of_nat (n : nat) : str :=
  lit (NilEmpty.string_of_uint (Nat.to_uint n)).

End Py.

(** ** The scanning loop

    [for line in lines: ...] with [continue] and [break]: the body maps the
    loop variables and the current line to the next loop variables, or
    leaves the loop. *)

Inductive flow (S : Type) : Type :=
| Next (s : S)
| Break (s : S).

Arguments Next {S} s.
Arguments Break {S} s.

Fixpoint for_in {A S : Type} (body : S -> A -> flow S) (xs : list A) (s : S) : S :=
  match xs with
  | [] => s
  | x :: xs' =>
      match body s x with
      | Next s' => for_in body xs' s'
      | Break s' => s'
      end
  end.

(** The loop variables of both scripts. *)
Record scan_state : Type := ScanState {
  in_table : bool;
  results : list (list str)
}.

Definition init_state : scan_state :=
  {| in_table := false; results := [] |}.

(** ** Files, standard output and exceptions

    The scripts read one file, write one file and print.  A run takes the
    world before to the world after, and either returns or raises. *)

Inductive exn : Type :=
| FileNotFoundError (path : string)
| IndexError.

Record world : Type := World {
  files : string -> option str;
  stdout : str
}.

Inductive outcome (A : Type) : Type :=
| Returned (a : A) (w : world)
| Raised (e : exn) (w : world).

Arguments Returned {A} a w.
Arguments Raised {A} e w.

Definition M (A : Type) : Type := world -> outcome A.

Definition ret {A : Type} (a : A) : M A := fun w => Returned a w.

Definition raise {A : Type} (e : exn) : M A := fun w => Raised e w.

Definition bind {A B : Type} (m : M A) (k : A -> M B) : M B :=
  fun w =>
    match m w with
    | Returned a w' => k a w'
    | Raised e w' => Raised e w'
    end.

Declare Scope py_scope.
Delimit Scope py_scope with py.
Notation "x <- m ;; k" := (bind m (fun x => k))
  (at level 61, m at next level, right associativity) : py_scope.
Notation "m ;; k" := (bind m (fun _ => k))
  (at level 61, right associativity) : py_scope.
Open Scope py_scope.

Definition set_file (path : string) (text : str) (fs : string -> option str)
  : string -> option str :=
  fun q => if String.eqb q path then Some text else fs q.

(** [with open(path, "r") as f: content = f.read()]: the text of the
    file as Python hands it over, or the exception when there is no such
    file. *)
Definition read_file (path : string) : M str :=
  fun w =>
    match files w path with
    | Some text => Returned text w
    | None => Raised (FileNotFoundError path) w
    end.

(** [open(path, "w")]: the file is created, or emptied when it exists. *)
Definition open_w (path : string) : M unit :=
  fun w => Returned tt {| files := set_file path [] (files w); stdout := stdout w |}.

(** [f.write(text)] on the file opened at [path]. *)
Definition write (path : string) (text : str) : M unit :=
  fun w =>
    let old := match files w path with Some t => t | None => [] end in
    Returned tt {| files := set_file path (old ++ text) (files w); stdout := stdout w |}.

(** [print(text)]: the text and a newline on standard output. *)
Definition print (text : str) : M unit :=
  fun w => Returned tt {| files := files w; stdout := stdout w ++ text ++ [nl] |}.

(** [r[i]] on a list. *)
Definition getitem (r : list str) (i : nat) : M str :=
  match nth_error r i with
  | Some x => ret x
  | None => raise IndexError
  end.

(** [for x in xs: f(x)] for a body without [break]. *)
Fixpoint for_each {A : Type} (xs : list A) (f : A -> M unit) : M unit :=
  match xs with
  | [] => ret tt
  | x :: xs' => f x ;; for_each xs' f
  end.

(** ** scripts/parse-bench-output.py *)

Module ParseBenchOutput.

(** Lines 13-22, the body of [for line in lines]. *)
Definition body (st : scan_state) (line : str) : flow scan_state :=
  if Py.contains (lit "Runtime") line && Py.contains (lit "Min") line then
    Next {| in_table := true; results := results st |}
  else if in_table st && Py.truthy (Py.strip line) && Py.contains (lit "|") line then
    let parts :=
      List.map Py.strip
        (List.filter (fun p => Py.truthy (Py.strip p)) (Py.split pipe line)) in
    if (4 <=? length parts) && negb (Py.eqb (nth 0 parts []) (lit "Runtime")) then
      Next {| in_table := in_table st; results := results st ++ [parts] |}
    else Next st
  else if in_table st && negb (Py.truthy (Py.strip line)) then
    Break st
  else Next st.

(** Lines 10-22: the loop over [lines], from [in_table = False] and
    [results = []]. *)
Definition scan (lines : list str) : list (list str) :=
  results (for_in body lines init_state).

(** Lines 9-22: from the file's text to [results]. *)
Definition parse (content : str) : list (list str) :=
  let lines := Py.split nl content in
  scan lines.

(** Lines 27-28, one table row. *)
Definition print_row (r : list str) : M unit :=
  r0 <- getitem r 0 ;;
  r1 <- getitem r 1 ;;
  r2 <- getitem r 2 ;;
  r3 <- getitem r 3 ;;
  print (lit "| " ++ Py.format_width 7 r0 ++ lit " | " ++ Py.format_width 5 r1 ++
         lit " | " ++ Py.format_width 5 r2 ++ lit " | " ++ Py.format_width 5 r3 ++
         lit " |").

(** Lines 24-31. *)
Definition report (results : list (list str)) : M unit :=
  if Py.truthy results then
    print ([nl] ++ lit "| Runtime | Min   | Max   | Avg   |") ;;
    print (lit "|---------|-------|-------|-------|") ;;
    for_each results print_row ;;
    print ([nl] ++ lit "Total: " ++ Py.str_of_nat (length results) ++
           lit " runtimes tested")
  else
    print (lit "No benchmark results found").

(** The whole script. *)
Definition main : M unit :=
  content <- read_file "bench-output.log" ;;
  report (parse content).

End ParseBenchOutput.

(** ** scripts/parse-bench-summary.py *)

Module ParseBenchSummary.

(** Lines 11-20, the body of [for line in lines]. *)
Definition body (st : scan_state) (line : str) : flow scan_state :=
  if Py.contains (lit "Runtime") line && Py.contains (lit "Min") line then
    Next {| in_table := true; results := results st |}
  else if in_table st && Py.truthy (Py.strip line) && Py.contains (lit "|") line then
    let parts :=
      List.map Py.strip
        (List.filter (fun p => Py.truthy (Py.strip p)) (Py.split pipe line)) in
    if (4 <=? length parts) && negb (Py.eqb (nth 0 parts []) (lit "Runtime")) then
      Next {| in_table := in_table st; results := results st ++ [parts] |}
    else Next st
  else if in_table st && negb (Py.truthy (Py.strip line)) then
    Break st
  else Next st.

(** Lines 8-20: the loop over [lines], from [in_table = False] and
    [results = []]. *)
Definition scan (lines : list str) : list (list str) :=
  results (for_in body lines init_state).

(** Lines 7-20: from the file's text to [results]. *)
Definition parse (content : str) : list (list str) :=
  let lines := Py.split nl content in
  scan lines.

(** Line 28, one markdown row. *)
Definition write_row (path : string) (r : list str) : M unit :=
  r0 <- getitem r 0 ;;
  r1 <- getitem r 1 ;;
  r2 <- getitem r 2 ;;
  r3 <- getitem r 3 ;;
  write path (lit "| " ++ r0 ++ lit " | " ++ r1 ++ lit " | " ++ r2 ++
              lit " | " ++ r3 ++ lit " |" ++ [nl]).

(** Lines 23-29. *)
Definition write_summary (results : list (list str)) : M unit :=
  let f := "bench-summary.md"%string in
  open_w f ;;
  write f ([nl] ++ lit "## Performance Benchmarks" ++ [nl; nl]) ;;
  write f (lit "| Runtime | Min | Max | Avg |" ++ [nl]) ;;
  write f (lit "|--------|-----|-----|-----|" ++ [nl]) ;;
  for_each results (write_row f) ;;
  write f ([nl] ++ lit "**Total runtimes tested:** " ++
           Py.str_of_nat (length results) ++ [nl]).

(** Line 36, one table row on standard output. *)
Definition print_row (r : list str) : M unit :=
  r0 <- getitem r 0 ;;
  r1 <- getitem r 1 ;;
  r2 <- getitem r 2 ;;
  r3 <- getitem r 3 ;;
  print (lit "| " ++ Py.format_width 7 r0 ++ lit " | " ++ Py.format_width 5 r1 ++
         lit " | " ++ Py.format_width 5 r2 ++ lit " | " ++ Py.format_width 5 r3 ++
         lit " |").

(** Lines 32-37: there is no [else]. *)
Definition report (results : list (list str)) : M unit :=
  if Py.truthy results then
    print ([nl] ++ lit "| Runtime | Min   | Max   | Avg   |") ;;
    print (lit "|---------|-------|-------|-------|") ;;
    for_each results print_row ;;
    print ([nl] ++ lit "Total: " ++ Py.str_of_nat (length results) ++
           lit " runtimes tested")
  else ret tt.

(** The whole script. *)
Definition main : M unit :=
  content <- read_file "bench-output.log" ;;
  let results := parse content in
  write_summary results ;;
  report results.

End ParseBenchSummary.

(** ** The conditions of the loop body, named

    Each is the expression of the source, taken out of the body so that
    statements can talk about it. *)

(** ["Runtime" in line and "Min" in line] *)
Definition is_header (line : str) : bool :=
  Py.contains (lit "Runtime") line && Py.contains (lit "Min") line.

(** [not line.strip()] *)
Definition is_blank (line : str) : bool :=
  negb (Py.truthy (Py.strip line)).

(** [line.strip() and "|" in line] *)
Definition is_candidate (line : str) : bool :=
  Py.truthy (Py.strip line) && Py.contains (lit "|") line.

(** [[p.strip() for p in line.split("|") if p.strip()]] *)
Definition fields (line : str) : list str :=
  List.map Py.strip
    (List.filter (fun p => Py.truthy (Py.strip p)) (Py.split pipe line)).

(** [len(parts) >= 4 and parts[0] != "Runtime"] *)
Definition guard (parts : list str) : bool :=
  (4 <=? length parts) && negb (Py.eqb (nth 0 parts []) (lit "Runtime")).

(** A line for which the body, in the table and past the header test,
    appends a record: both conditions above hold. *)
Definition is_valid_row (line : str) : bool :=
  is_candidate line && guard (fields line).

(** The loop with its way out recorded: [Break] when it left through
    [break], [Next] when the lines ran out. *)
Fixpoint for_in_flow {A S : Type} (body : S -> A -> flow S) (xs : list A) (s : S)
  : flow S :=
  match xs with
  | [] => Next s
  | x :: xs' =>
      match body s x with
      | Next s' => for_in_flow body xs' s'
      | Break s' => Break s'
      end
  end.

Definition flow_state {S : Type} (f : flow S) : S :=
  match f with
  | Next s => s
  | Break s => s
  end.

(** The world in which [bench-output.log] holds [content] and nothing has
    been printed. *)
Definition world_with_log (content : str) : world :=
  {| files := set_file "bench-output.log" content (fun _ => None);
     stdout := [] |}.

(** The loop body of both scripts over the named conditions. *)
Definition scan_body (st : scan_state) (line : str) : flow scan_state :=
  if is_header line then
    Next {| in_table := true; results := results st |}
  else if in_table st && is_candidate line then
    if guard (fields line) then
      Next {| in_table := in_table st; results := results st ++ [fields line] |}
    else Next st
  else if in_table st && is_blank line then
    Break st
  else Next st.

(** What both scripts' loops compute, through the common body. *)
Definition scan_flow (lines : list str) (st : scan_state) : flow scan_state :=
  for_in_flow scan_body lines st.

(** The text line 28 (line 36 in the summary script) prints for a record,
    with the newline [print] adds; [r[i]] is [nth i r []] on a record with
    four fields or more. *)
Definition console_row (r : list str) : str :=
  lit "| " ++ Py.format_width 7 (nth 0 r []) ++ lit " | " ++
  Py.format_width 5 (nth 1 r []) ++ lit " | " ++ Py.format_width 5 (nth 2 r []) ++
  lit " | " ++ Py.format_width 5 (nth 3 r []) ++ lit " |" ++ [nl].

(** The text line 28 of the summary script writes for a record. *)
Definition markdown_row (r : list str) : str :=
  lit "| " ++ nth 0 r [] ++ lit " | " ++ nth 1 r [] ++ lit " | " ++ nth 2 r [] ++
  lit " | " ++ nth 3 r [] ++ lit " |" ++ [nl].

(** [w'] is [w] with [text] in the file at [path]: other files and
    standard output are as they were. *)
Definition file_written (path : string) (text : str) (w w' : world) : Prop :=
  files w' path = Some text /\
  (forall q, q <> path -> files w' q = files w q) /\
  stdout w' = stdout w.

Definition final_world {A : Type} (o : outcome A) : world :=
  match o with
  | Returned _ w => w
  | Raised _ w => w
  end.

Definition has_returned {A : Type} (o : outcome A) : bool :=
  match o with
  | Returned _ _ => true
  | Raised _ _ => false
  end.

(** ** The parser as a pipeline

    A closed form to compare the loops of the scripts with: locate the
    table region, keep the rows that become records, split each into its
    fields. *)

Fixpoint take_while {A : Type} (p : A -> bool) (xs : list A) : list A :=
  match xs with
  | [] => []
  | x :: xs' => if p x then x :: take_while p xs' else []
  end.

(** The lines after the first header line, up to the first blank line. *)
Definition table_region (lines : list str) : list str :=
  take_while (fun l => negb (is_blank l))
    (tl (Py.dropwhile (fun l => negb (is_header l)) lines)).

(** The rows of the region that become records. *)
Definition is_record_row (line : str) : bool :=
  negb (is_header line) && is_valid_row line.

Definition parse_pipeline (lines : list str) : list (list str) :=
  List.map fields (List.filter is_record_row (table_region lines)).


(** * Properties *)

(** ** Strings *)

Section DropWhileFacts.
Variable A : Type.
Variable p : A -> bool.

Lemma dropwhile_incl (s : list A) (x : A) :
  In x (Py.dropwhile p s) -> In x s.
Proof.
  induction s as [|c s IH]; simpl; [tauto|].
  destruct (p c); simpl; tauto.
Qed.

Lemma dropwhile_head (s : list A) (c : A) (t : list A) :
  Py.dropwhile p s = c :: t -> p c = false.
Proof.
  induction s as [|d s IH]; simpl; [discriminate|].
  destruct (p d) eqn:E; [exact IH|].
  intros H; injection H as -> _; exact E.
Qed.

Lemma dropwhile_nil (s : list A) :
  Py.dropwhile p s = [] <-> forallb p s = true.
Proof.
  induction s as [|c s IH]; simpl; [tauto|].
  destruct (p c); simpl; [exact IH|].
  split; discriminate.
Qed.

Lemma dropwhile_end_incl (s : list A) (x : A) :
  In x (Py.dropwhile_end p s) -> In x s.
Proof.
  induction s as [|c s IH]; simpl; [tauto|].
  destruct (Py.dropwhile_end p s) as [|d t].
  - destruct (p c); simpl; tauto.
  - intros [H|H]; [left; exact H | right; apply IH; exact H].
Qed.

Lemma dropwhile_end_head (s : list A) (c : A) (t : list A) :
  Py.dropwhile_end p s = c :: t -> exists t', s = c :: t'.
Proof.
  destruct s as [|d s]; simpl; [discriminate|].
  destruct (Py.dropwhile_end p s) as [|e u].
  - destruct (p d); [discriminate|].
    intros H; injection H as -> _; eauto.
  - intros H; injection H as -> _; eauto.
Qed.

Lemma dropwhile_end_last (s t : list A) (c : A) :
  Py.dropwhile_end p s = t ++ [c] -> p c = false.
Proof.
  revert t; induction s as [|d s IH]; intros t; simpl.
  - destruct t; discriminate.
  - destruct (Py.dropwhile_end p s) as [|e u] eqn:E.
    + destruct (p d) eqn:Ed; [destruct t; discriminate|].
      destruct t as [|x t]; simpl; intros H.
      * injection H as ->; exact Ed.
      * injection H as _ H; destruct t; discriminate.
    + destruct t as [|x t]; simpl; intros H.
      * discriminate.
      * injection H as _ H. apply (IH t). exact H.
Qed.

Lemma dropwhile_end_nil (s : list A) :
  Py.dropwhile_end p s = [] <-> forallb p s = true.
Proof.
  induction s as [|c s IH]; simpl; [tauto|].
  destruct (Py.dropwhile_end p s) as [|d t].
  - destruct (p c); simpl; [tauto|]. split; discriminate.
  - split; [discriminate|].
    rewrite andb_true_iff. intros [_ H]. apply IH in H. discriminate.
Qed.

Lemma forallb_dropwhile (s : list A) :
  forallb p s = true -> forallb p (Py.dropwhile p s) = true.
Proof.
  intros H. apply dropwhile_nil in H. rewrite H. reflexivity.
Qed.
End DropWhileFacts.

Lemma strip_incl (s : str) (c : char) : In c (Py.strip s) -> In c s.
Proof.
  unfold Py.strip, Py.rstrip, Py.lstrip. intros H.
  apply dropwhile_incl with (p := Py.isspace).
  apply dropwhile_end_incl with (p := Py.isspace). exact H.
Qed.

Lemma strip_head (s : str) (c : char) (t : str) :
  Py.strip s = c :: t -> Py.isspace c = false.
Proof.
  unfold Py.strip, Py.rstrip, Py.lstrip. intros H.
  destruct (dropwhile_end_head _ _ _ _ _ H) as [t' Ht'].
  exact (dropwhile_head _ _ _ _ _ Ht').
Qed.

Lemma strip_last (s t : str) (c : char) :
  Py.strip s = t ++ [c] -> Py.isspace c = false.
Proof.
  unfold Py.strip, Py.rstrip. apply dropwhile_end_last.
Qed.

(** A string strips to nothing exactly when it is all whitespace. *)
Lemma strip_nil (s : str) :
  Py.strip s = [] <-> forallb Py.isspace s = true.
Proof.
  unfold Py.strip, Py.rstrip, Py.lstrip. split; intros H.
  - apply dropwhile_end_nil in H. apply dropwhile_nil.
    destruct (Py.dropwhile Py.isspace s) as [|c t] eqn:E; [reflexivity|].
    simpl in H. rewrite (dropwhile_head _ _ _ _ _ E) in H. discriminate.
  - apply dropwhile_end_nil. apply forallb_dropwhile. exact H.
Qed.

Lemma truthy_false {A : Type} (s : list A) : Py.truthy s = false <-> s = [].
Proof. destruct s; simpl; split; congruence. Qed.

Lemma is_blank_spec (line : str) :
  is_blank line = true <-> forallb Py.isspace line = true.
Proof.
  unfold is_blank. rewrite negb_true_iff, truthy_false. apply strip_nil.
Qed.

Lemma startswith_head (x : char) (pat s : str) :
  Py.startswith (x :: pat) s = true -> In x s.
Proof.
  destruct s as [|c s]; simpl; [discriminate|].
  rewrite andb_true_iff, N.eqb_eq. intros [-> _]. left; reflexivity.
Qed.

Lemma contains_head (x : char) (pat s : str) :
  Py.contains (x :: pat) s = true -> In x s.
Proof.
  induction s as [|c s IH].
  - simpl. discriminate.
  - change (Py.contains (x :: pat) (c :: s))
      with (Py.startswith (x :: pat) (c :: s) || Py.contains (x :: pat) s).
    rewrite orb_true_iff. intros [H|H].
    + apply startswith_head in H. exact H.
    + right. apply IH. exact H.
Qed.

(** A blank line holds no letter, so it is never a header line. *)
Lemma blank_not_header (line : str) :
  is_blank line = true -> is_header line = false.
Proof.
  rewrite is_blank_spec. intros H. unfold is_header.
  destruct (Py.contains (lit "Runtime") line) eqn:E; [|reflexivity].
  apply contains_head in E.
  rewrite forallb_forall in H. apply H in E. discriminate.
Qed.

Lemma split_nonempty (sep : char) (s : str) : Py.split sep s <> [].
Proof.
  destruct s as [|c s]; simpl; [discriminate|].
  destruct (N.eqb c sep); [discriminate|].
  destruct (Py.split sep s); discriminate.
Qed.

(** No piece of [s.split(sep)] holds the separator. *)
Lemma split_no_sep (sep : char) (s p : str) :
  In p (Py.split sep s) -> ~ In sep p.
Proof.
  revert p; induction s as [|c s IH]; intros p; simpl.
  - intros [<-|[]]. simpl. tauto.
  - destruct (N.eqb c sep) eqn:E.
    + intros [<-|H]; [simpl; tauto | apply IH; exact H].
    + destruct (Py.split sep s) as [|q qs].
      * intros [<-|[]]. simpl. intros [->|[]].
        rewrite N.eqb_refl in E. discriminate.
      * intros [<-|H].
        -- simpl. intros [->|H].
           ++ rewrite N.eqb_refl in E. discriminate.
           ++ apply (IH q); [left; reflexivity | exact H].
        -- apply IH. right. exact H.
Qed.

(** ** The loop *)

Lemma output_body_eq (st : scan_state) (line : str) :
  ParseBenchOutput.body st line = scan_body st line.
Proof.
  unfold ParseBenchOutput.body, scan_body, is_candidate, is_blank, guard, fields, is_header.
  rewrite andb_assoc. reflexivity.
Qed.

Lemma summary_body_eq (st : scan_state) (line : str) :
  ParseBenchSummary.body st line = scan_body st line.
Proof.
  unfold ParseBenchSummary.body, scan_body, is_candidate, is_blank, guard, fields, is_header.
  rewrite andb_assoc. reflexivity.
Qed.

Section ForIn.
Variables (A S : Type).
Variable body : S -> A -> flow S.

Lemma for_in_flow_state (xs : list A) (s : S) :
  for_in body xs s = flow_state (for_in_flow body xs s).
Proof.
  revert s; induction xs as [|x xs IH]; intros s; simpl; [reflexivity|].
  destruct (body s x); [apply IH | reflexivity].
Qed.

Lemma for_in_flow_app (xs ys : list A) (s : S) :
  for_in_flow body (xs ++ ys) s =
  match for_in_flow body xs s with
  | Next s' => for_in_flow body ys s'
  | Break s' => Break s'
  end.
Proof.
  revert s; induction xs as [|x xs IH]; intros s; simpl; [reflexivity|].
  destruct (body s x); [apply IH | reflexivity].
Qed.

Lemma for_in_ext (body' : S -> A -> flow S) (xs : list A) (s : S) :
  (forall st x, body st x = body' st x) ->
  for_in body xs s = for_in body' xs s.
Proof.
  intros E. revert s; induction xs as [|x xs IH]; intros s; simpl; [reflexivity|].
  rewrite E. destruct (body' s x); [apply IH | reflexivity].
Qed.
End ForIn.

Lemma output_scan_eq (lines : list str) :
  ParseBenchOutput.scan lines = results (flow_state (scan_flow lines init_state)).
Proof.
  unfold ParseBenchOutput.scan, scan_flow.
  rewrite <- for_in_flow_state. f_equal.
  apply for_in_ext. exact output_body_eq.
Qed.

Lemma summary_scan_eq (lines : list str) :
  ParseBenchSummary.scan lines = results (flow_state (scan_flow lines init_state)).
Proof.
  unfold ParseBenchSummary.scan, scan_flow.
  rewrite <- for_in_flow_state. f_equal.
  apply for_in_ext. exact summary_body_eq.
Qed.

Lemma scan_state_eta (st : scan_state) :
  {| in_table := in_table st; results := results st |} = st.
Proof. destruct st; reflexivity. Qed.

(** While seeking, a line that is not a header changes nothing. *)
Lemma scan_flow_seeking (pre : list str) (st : scan_state) :
  in_table st = false ->
  Forall (fun l => is_header l = false) pre ->
  scan_flow pre st = Next st.
Proof.
  intros Hst H. induction H as [|l pre Hl _ IH]; [reflexivity|].
  unfold scan_flow in *. simpl. unfold scan_body at 1.
  rewrite Hl, Hst. simpl. exact IH.
Qed.

(** [in_table] never goes back to [False]. *)
Lemma scan_flow_in_table (lines : list str) (st : scan_state) :
  in_table st = true ->
  in_table (flow_state (scan_flow lines st)) = true.
Proof.
  revert st; induction lines as [|l lines IH]; intros st Hst; [exact Hst|].
  unfold scan_flow in *. simpl. unfold scan_body at 1.
  destruct (is_header l); [apply IH; reflexivity|].
  destruct (in_table st && is_candidate l).
  - destruct (guard (fields l)); apply IH; simpl; exact Hst.
  - destruct (in_table st && is_blank l); [exact Hst | apply IH; exact Hst].
Qed.

(** Once a header line has been read, [in_table] holds. *)
Lemma scan_flow_started (lines : list str) (st : scan_state) :
  existsb is_header lines = true ->
  in_table (flow_state (scan_flow lines st)) = true.
Proof.
  revert st; induction lines as [|l lines IH]; intros st; simpl; [discriminate|].
  unfold scan_flow in *. simpl. unfold scan_body at 1.
  destruct (is_header l) eqn:Hl; simpl.
  - intros _. apply scan_flow_in_table. reflexivity.
  - intros H. destruct (in_table st) eqn:Hst; simpl.
    + destruct (is_candidate l).
      * destruct (guard (fields l)); apply IH; exact H.
      * destruct (is_blank l); [exact Hst | apply IH; exact H].
    + apply IH; exact H.
Qed.

(** In the table, a blank line leaves the loop. *)
Lemma scan_body_blank (st : scan_state) (line : str) :
  in_table st = true -> is_blank line = true ->
  scan_body st line = Break st.
Proof.
  intros Hst Hb. unfold scan_body.
  rewrite (blank_not_header _ Hb), Hst. unfold is_candidate.
  unfold is_blank in Hb. rewrite negb_true_iff in Hb. rewrite Hb. simpl.
  unfold is_blank. rewrite Hb. reflexivity.
Qed.

(** In the table, a line with text and no pipe is passed over. *)
Lemma scan_body_no_pipe (st : scan_state) (line : str) :
  in_table st = true -> is_blank line = false ->
  Py.contains (lit "|") line = false ->
  scan_body st line = Next st.
Proof.
  intros Hst Hb Hp. unfold scan_body, is_candidate.
  rewrite Hst, Hp, Hb, andb_false_r. simpl.
  destruct (is_header line); [|reflexivity].
  rewrite <- Hst. rewrite scan_state_eta. reflexivity.
Qed.

(** In the table, a line that is not a header and is a candidate row is
    appended exactly when the guard holds. *)
Lemma scan_body_candidate (st : scan_state) (line : str) :
  in_table st = true -> is_header line = false -> is_candidate line = true ->
  scan_body st line =
  Next {| in_table := true;
          results := results st ++ (if guard (fields line) then [fields line] else []) |}.
Proof.
  intros Hst Hh Hc. unfold scan_body. rewrite Hh, Hst, Hc. simpl.
  destruct (guard (fields line)); [reflexivity|].
  rewrite app_nil_r, <- Hst, scan_state_eta. reflexivity.
Qed.

(** A header line is never a record, whatever else it holds. *)
Lemma scan_body_header (st : scan_state) (line : str) :
  is_header line = true ->
  scan_body st line = Next {| in_table := true; results := results st |}.
Proof. intros H. unfold scan_body. rewrite H. reflexivity. Qed.

(** In the table, lines with text never leave the loop. *)
Lemma scan_flow_no_blank (mid : list str) (st : scan_state) :
  in_table st = true ->
  Forall (fun l => is_blank l = false) mid ->
  exists st', scan_flow mid st = Next st' /\ in_table st' = true.
Proof.
  intros Hst H. revert st Hst.
  induction H as [|l mid Hl _ IH]; intros st Hst; [exists st; split; [reflexivity|exact Hst]|].
  unfold scan_flow in *. simpl. unfold scan_body at 1.
  rewrite Hl, Hst, andb_false_r. simpl.
  destruct (is_header l); [apply IH; reflexivity|].
  destruct (is_candidate l); [|apply IH; exact Hst].
  destruct (guard (fields l)); apply IH; first [reflexivity | exact Hst].
Qed.

(** The state after the first header line and the rows that follow it
    without a blank line. *)
Lemma scan_flow_table_open (pre : list str) (h : str) (mid : list str) :
  Forall (fun l => is_header l = false) pre ->
  is_header h = true ->
  Forall (fun l => is_blank l = false) mid ->
  exists st, scan_flow (pre ++ h :: mid) init_state = Next st /\ in_table st = true.
Proof.
  intros Hpre Hh Hmid. unfold scan_flow. rewrite for_in_flow_app.
  fold (scan_flow pre init_state).
  rewrite (scan_flow_seeking pre init_state eq_refl Hpre).
  simpl. rewrite (scan_body_header _ _ Hh).
  apply scan_flow_no_blank; [reflexivity | exact Hmid].
Qed.

(** Valid rows that are no header lines are appended in order. *)
Lemma scan_flow_rows (rows : list str) (st : scan_state) :
  in_table st = true ->
  Forall (fun l => is_valid_row l = true) rows ->
  Forall (fun l => is_header l = false) rows ->
  scan_flow rows st =
  Next {| in_table := true; results := results st ++ List.map fields rows |}.
Proof.
  intros Hst Hv. revert st Hst.
  induction Hv as [|l rows Hl _ IH]; intros st Hst Hh.
  - simpl. rewrite app_nil_r, <- Hst, scan_state_eta. reflexivity.
  - inversion Hh as [|? ? Hhl Hh']; subst.
    unfold is_valid_row in Hl. apply andb_true_iff in Hl as [Hc Hg].
    unfold scan_flow in *. simpl.
    rewrite (scan_body_candidate _ _ Hst Hhl Hc), Hg.
    rewrite IH; [|reflexivity|exact Hh']. simpl.
    rewrite <- app_assoc. reflexivity.
Qed.

(** Every record comes from a line that passed the guard. *)
Lemma scan_flow_records (lines : list str) (st : scan_state) (r : list str) :
  In r (results (flow_state (scan_flow lines st))) ->
  In r (results st) \/
  exists line, In line lines /\ r = fields line /\ guard (fields line) = true.
Proof.
  revert st; induction lines as [|l lines IH]; intros st; [left; assumption|].
  unfold scan_flow in *. simpl. unfold scan_body at 1.
  assert (K : forall st', In r (results (flow_state (scan_flow lines st'))) ->
              results st' = results st ->
              In r (results st) \/
              exists line, In line (l :: lines) /\ r = fields line /\
                           guard (fields line) = true).
  { intros st' H E. destruct (IH st' H) as [H'|(x & Hx & Hr)].
    - left. rewrite <- E. exact H'.
    - right. exists x. split; [right; exact Hx | exact Hr]. }
  destruct (is_header l); [intros H; apply (K _ H); reflexivity|].
  destruct (in_table st && is_candidate l).
  - destruct (guard (fields l)) eqn:Hg; [|intros H; apply (K _ H); reflexivity].
    intros H. destruct (IH _ H) as [H'|(x & Hx & Hr)].
    + simpl in H'. apply in_app_or in H' as [H'|[<-|[]]]; [left; exact H'|].
      right. exists l. split; [left; reflexivity|]. split; [reflexivity|exact Hg].
    + right. exists x. split; [right; exact Hx | exact Hr].
  - destruct (in_table st && is_blank l); [left; assumption|].
    intros H; apply (K _ H); reflexivity.
Qed.

(** Without a line that passes the guard, nothing is appended. *)
Lemma scan_flow_no_guard (lines : list str) (st : scan_state) :
  Forall (fun l => guard (fields l) = false) lines ->
  results (flow_state (scan_flow lines st)) = results st.
Proof.
  intros H. revert st. induction H as [|l lines Hl _ IH]; intros st; [reflexivity|].
  unfold scan_flow in *. simpl. unfold scan_body at 1. rewrite Hl.
  destruct (is_header l); [rewrite IH; reflexivity|].
  destruct (in_table st && is_candidate l); [apply IH|].
  destruct (in_table st && is_blank l); [reflexivity|apply IH].
Qed.

(** The records of a table: lines before the first header, the header,
    valid rows, then the end of the text or a blank line. *)
Lemma scan_flow_table (pre : list str) (h : str) (rows tail : list str) :
  Forall (fun l => is_header l = false) pre ->
  is_header h = true ->
  Forall (fun l => is_valid_row l = true) rows ->
  Forall (fun l => is_header l = false) rows ->
  (tail = [] \/ exists b t, tail = b :: t /\ is_blank b = true) ->
  results (flow_state (scan_flow (pre ++ h :: rows ++ tail) init_state)) =
  List.map fields rows.
Proof.
  intros Hpre Hh Hv Hnh Htail. unfold scan_flow.
  rewrite for_in_flow_app. fold (scan_flow pre init_state).
  rewrite (scan_flow_seeking pre init_state eq_refl Hpre).
  simpl. rewrite (scan_body_header _ _ Hh).
  rewrite for_in_flow_app.
  fold (scan_flow rows {| in_table := true; results := results init_state |}).
  rewrite (scan_flow_rows rows {| in_table := true; results := results init_state |}
             eq_refl Hv Hnh). simpl.
  destruct Htail as [->|(b & t & -> & Hb)]; [reflexivity|].
  simpl. rewrite scan_body_blank; [reflexivity | reflexivity | exact Hb].
Qed.

(** ** The parser *)

(** C1, as stated, fails: a row with four fields whose text holds both
    header words is taken for a header line and dropped.  Here one valid
    row follows the header and no record comes out. *)
Lemma valid_row_with_header_words_dropped :
  let header := lit "Runtime Min Max Avg" in
  let row := lit "| Min-Runtime | 1 | 5 | 3 |" in
  let content := header ++ [nl] ++ row ++ [nl] in
  Py.split nl content = [] ++ header :: [row] ++ [[]] /\
  is_header header = true /\
  is_valid_row row = true /\
  is_blank [] = true /\
  fields row = [lit "Min-Runtime"; lit "1"; lit "5"; lit "3"] /\
  ParseBenchOutput.parse content = [] /\
  ParseBenchSummary.parse content = [].
Proof. vm_compute. repeat split; reflexivity. Qed.

(** C1 (amended): when the lines of the input are some lines without a
    header, the first header line, N valid rows none of which holds both
    header words, and then the end of the input or a blank line, both
    scripts parse exactly the N rows' fields, in order: N records, each the
    trimmed non-empty pipe-split segments of its line, so in particular
    its first four fields are the first four segments. *)
Theorem parse_well_formed_table
  (content : str) (pre : list str) (h : str) (rows tail : list str) :
  Py.split nl content = pre ++ h :: rows ++ tail ->
  Forall (fun l => is_header l = false) pre ->
  is_header h = true ->
  Forall (fun l => is_valid_row l = true) rows ->
  Forall (fun l => is_header l = false) rows ->
  (tail = [] \/ exists b t, tail = b :: t /\ is_blank b = true) ->
  ParseBenchOutput.parse content = List.map fields rows /\
  ParseBenchSummary.parse content = List.map fields rows /\
  length (ParseBenchOutput.parse content) = length rows /\
  List.map (firstn 4) (ParseBenchOutput.parse content) =
    List.map (fun l => firstn 4 (fields l)) rows.
Proof.
  intros Hs Hpre Hh Hv Hnh Htail.
  assert (E : ParseBenchOutput.parse content = List.map fields rows).
  { unfold ParseBenchOutput.parse. simpl. rewrite Hs, output_scan_eq.
    apply scan_flow_table; assumption. }
  repeat split.
  - exact E.
  - unfold ParseBenchSummary.parse. simpl. rewrite Hs, summary_scan_eq.
    apply scan_flow_table; assumption.
  - rewrite E. apply length_map.
  - rewrite E. apply map_map.
Qed.

Lemma parse_well_formed_table_witness :
  let content :=
    lit "running benchmarks" ++ [nl] ++ lit "Runtime | Min | Max | Avg" ++ [nl] ++
    lit "| go | 1.2 | 5.6 | 3.1 |" ++ [nl] ++ lit " rust | 0.9 | 2.0 | 1.1 | ok " ++ [nl] ++
    [nl] ++ lit "| zig | 1 | 1 | 1 |" in
  ParseBenchOutput.parse content =
    [[lit "go"; lit "1.2"; lit "5.6"; lit "3.1"];
     [lit "rust"; lit "0.9"; lit "2.0"; lit "1.1"; lit "ok"]] /\
  ParseBenchSummary.parse content =
    [[lit "go"; lit "1.2"; lit "5.6"; lit "3.1"];
     [lit "rust"; lit "0.9"; lit "2.0"; lit "1.1"; lit "ok"]].
Proof.
  intros content.
  destruct (parse_well_formed_table content
              [lit "running benchmarks"] (lit "Runtime | Min | Max | Avg")
              [lit "| go | 1.2 | 5.6 | 3.1 |"; lit " rust | 0.9 | 2.0 | 1.1 | ok "]
              [[]; lit "| zig | 1 | 1 | 1 |"]) as (E1 & E2 & _ & _).
  - vm_compute. reflexivity.
  - repeat constructor.
  - vm_compute. reflexivity.
  - repeat constructor.
  - repeat constructor.
  - right. exists [], [lit "| zig | 1 | 1 | 1 |"]. split; reflexivity.
  - split; [exact E1 | exact E2].
Defined.

(** C2, as stated, fails: the header test is made on every line, also
    after the table has started, so a candidate row that holds both header
    words is passed over although it has four fields and does not start
    with the header's first word. *)
Lemma candidate_row_with_header_words_rejected :
  let header := lit "Runtime Min Max Avg" in
  let line := lit "| go | Runtime | Min | 3 |" in
  is_header header = true /\
  is_candidate line = true /\
  fields line = [lit "go"; lit "Runtime"; lit "Min"; lit "3"] /\
  guard (fields line) = true /\
  ParseBenchOutput.scan [header; line] = [] /\
  ParseBenchSummary.scan [header; line] = [] /\
  ParseBenchOutput.parse (header ++ [nl] ++ line) = [] /\
  ParseBenchSummary.parse (header ++ [nl] ++ line) = [].
Proof. vm_compute. repeat split; reflexivity. Qed.

(** C2 (amended): after the first header line and before any blank line,
    a candidate row is accepted as a record if and only if it does not
    itself hold both header words, has at least four fields, and its first
    field is not the header's first word; a candidate row that holds both
    header words is passed over as a header line. *)
Theorem candidate_row_accepted_iff
  (pre : list str) (h : str) (mid : list str) (line : str) :
  Forall (fun l => is_header l = false) pre ->
  is_header h = true ->
  Forall (fun l => is_blank l = false) mid ->
  is_candidate line = true ->
  let before := pre ++ h :: mid in
  let accepted := negb (is_header line) && guard (fields line) in
  ParseBenchOutput.scan (before ++ [line]) =
    ParseBenchOutput.scan before ++ (if accepted then [fields line] else []) /\
  ParseBenchSummary.scan (before ++ [line]) =
    ParseBenchSummary.scan before ++ (if accepted then [fields line] else []).
Proof.
  intros Hpre Hh Hmid Hc before accepted.
  assert (E : results (flow_state (scan_flow (before ++ [line]) init_state)) =
              results (flow_state (scan_flow before init_state)) ++
              (if accepted then [fields line] else [])).
  { destruct (scan_flow_table_open pre h mid Hpre Hh Hmid) as (st & Hst & Hin).
    unfold scan_flow in *. rewrite for_in_flow_app. fold before in Hst.
    rewrite Hst. simpl. unfold accepted.
    destruct (is_header line) eqn:Hl.
    - rewrite (scan_body_header _ _ Hl). simpl. rewrite app_nil_r. reflexivity.
    - rewrite (scan_body_candidate _ _ Hin Hl Hc). reflexivity. }
  split; [rewrite !output_scan_eq | rewrite !summary_scan_eq]; exact E.
Qed.

Lemma candidate_row_accepted_iff_witness :
  ParseBenchOutput.scan
    (([lit "log"] ++ lit "Runtime Min" :: [lit "| a | 1 | 2 | 3 |"; lit "note"]) ++
     [lit "| b | 4 | 5 | 6 |"]) =
  ParseBenchOutput.scan
    ([lit "log"] ++ lit "Runtime Min" :: [lit "| a | 1 | 2 | 3 |"; lit "note"]) ++
  [[lit "b"; lit "4"; lit "5"; lit "6"]].
Proof.
  refine (proj1 (candidate_row_accepted_iff [lit "log"] (lit "Runtime Min")
                   [lit "| a | 1 | 2 | 3 |"; lit "note"] (lit "| b | 4 | 5 | 6 |")
                   _ _ _ _)).
  - repeat constructor.
  - vm_compute. reflexivity.
  - repeat constructor.
  - vm_compute. reflexivity.
Defined.

(** C4: on every input text the two scripts parse the same records. *)
Theorem parse_same_in_both_scripts (content : str) :
  ParseBenchOutput.parse content = ParseBenchSummary.parse content.
Proof.
  unfold ParseBenchOutput.parse, ParseBenchSummary.parse. simpl.
  rewrite output_scan_eq, summary_scan_eq. reflexivity.
Qed.

(** Once the table has started, nothing after a blank line is looked at. *)
Lemma scan_flow_blank_stops (before : list str) (b : str) (rest : list str) :
  existsb is_header before = true ->
  is_blank b = true ->
  flow_state (scan_flow (before ++ b :: rest) init_state) =
  flow_state (scan_flow before init_state).
Proof.
  intros Hh Hb. pose proof (scan_flow_started before init_state Hh) as Hin.
  unfold scan_flow in *. rewrite for_in_flow_app.
  destruct (for_in_flow scan_body before init_state) as [st|st]; [|reflexivity].
  simpl in *. rewrite (scan_body_blank _ _ Hin Hb). reflexivity.
Qed.

(** Once the table has started, a line with text and no pipe might as
    well not be there. *)
Lemma scan_flow_no_pipe_skipped (before : list str) (l : str) (rest : list str) :
  existsb is_header before = true ->
  is_blank l = false ->
  Py.contains (lit "|") l = false ->
  scan_flow (before ++ l :: rest) init_state =
  scan_flow (before ++ rest) init_state.
Proof.
  intros Hh Hb Hp. pose proof (scan_flow_started before init_state Hh) as Hin.
  unfold scan_flow in *. rewrite !for_in_flow_app.
  destruct (for_in_flow scan_body before init_state) as [st|st]; [|reflexivity].
  simpl in *. rewrite (scan_body_no_pipe _ _ Hin Hb Hp). reflexivity.
Qed.

(** C6: when a header line has been read, the scan ends at the first blank
    line: the records are those of the lines before it, whatever follows
    (the specification's example gives the one record for "go"); a line
    with text and no pipe is passed over and the scan goes on as if the
    line were absent. *)
Theorem blank_line_ends_scan
  (content : str) (before : list str) (x : str) (rest : list str) :
  Py.split nl content = before ++ x :: rest ->
  existsb is_header before = true ->
  (is_blank x = true ->
     ParseBenchOutput.parse content = ParseBenchOutput.scan before /\
     ParseBenchSummary.parse content = ParseBenchSummary.scan before) /\
  (is_blank x = false -> Py.contains (lit "|") x = false ->
     ParseBenchOutput.parse content = ParseBenchOutput.scan (before ++ rest) /\
     ParseBenchSummary.parse content = ParseBenchSummary.scan (before ++ rest)) /\
  (let example :=
     lit "Runtime Min Max Avg" ++ [nl] ++ lit "| go | 1 | 5 | 3 |" ++ [nl] ++
     [nl] ++ lit "| rust | 1 | 2 | 1 |" in
   ParseBenchOutput.parse example = [[lit "go"; lit "1"; lit "5"; lit "3"]] /\
   ParseBenchSummary.parse example = [[lit "go"; lit "1"; lit "5"; lit "3"]]).
Proof.
  intros Hs Hh. unfold ParseBenchOutput.parse, ParseBenchSummary.parse. simpl.
  split; [|split].
  - intros Hb. rewrite Hs.
    split; [rewrite !output_scan_eq | rewrite !summary_scan_eq];
      rewrite (scan_flow_blank_stops _ _ _ Hh Hb); reflexivity.
  - intros Hb Hp. rewrite Hs.
    split; [rewrite !output_scan_eq | rewrite !summary_scan_eq];
      rewrite (scan_flow_no_pipe_skipped _ _ _ Hh Hb Hp); reflexivity.
  - vm_compute. split; reflexivity.
Qed.

Lemma blank_line_ends_scan_witness :
  (ParseBenchOutput.parse
     (lit "Runtime Min" ++ [nl] ++ lit "| go | 1 | 5 | 3 |" ++ [nl] ++ lit "  " ++
      [nl] ++ lit "| rust | 1 | 2 | 1 |") =
   ParseBenchOutput.scan [lit "Runtime Min"; lit "| go | 1 | 5 | 3 |"]) /\
  (ParseBenchOutput.parse
     (lit "Runtime Min" ++ [nl] ++ lit "-- results --" ++ [nl] ++
      lit "| rust | 1 | 2 | 1 |") =
   ParseBenchOutput.scan ([lit "Runtime Min"] ++ [lit "| rust | 1 | 2 | 1 |"])).
Proof.
  split.
  - refine (proj1 (proj1 (blank_line_ends_scan _
             [lit "Runtime Min"; lit "| go | 1 | 5 | 3 |"] (lit "  ")
             [lit "| rust | 1 | 2 | 1 |"] _ _) _)).
    + vm_compute. reflexivity.
    + vm_compute. reflexivity.
    + vm_compute. reflexivity.
  - refine (proj1 (proj1 (proj2 (blank_line_ends_scan _
             [lit "Runtime Min"] (lit "-- results --")
             [lit "| rust | 1 | 2 | 1 |"] _ _)) _ _)).
    + vm_compute. reflexivity.
    + vm_compute. reflexivity.
    + vm_compute. reflexivity.
    + vm_compute. reflexivity.
Defined.

(** Every record of a scan is the field list of one of the lines, and
    passed the guard. *)
Lemma scan_records (lines : list str) (r : list str) :
  In r (results (flow_state (scan_flow lines init_state))) ->
  exists line, In line lines /\ r = fields line /\ guard (fields line) = true.
Proof.
  intros H. destruct (scan_flow_records lines init_state r H) as [[]|H']. exact H'.
Qed.

Lemma guard_length (parts : list str) : guard parts = true -> 4 <= length parts.
Proof.
  unfold guard. rewrite andb_true_iff, Nat.leb_le. tauto.
Qed.

(** What a field is: the stripped form of a piece of the split line, and
    not empty. *)
Lemma fields_spec (line f : str) :
  In f (fields line) ->
  exists p, In p (Py.split pipe line) /\ f = Py.strip p /\ f <> [].
Proof.
  unfold fields. rewrite in_map_iff. intros (p & <- & Hp).
  apply filter_In in Hp as [Hp Ht]. exists p. repeat split; [exact Hp|].
  intros E. rewrite E in Ht. discriminate.
Qed.

(** C3, as stated, fails: the whole field list of an accepted line goes
    into [results]; a line with five fields gives a record of five. *)
Lemma record_keeps_fifth_field :
  let content := lit "Runtime Min Max Avg" ++ [nl] ++ lit "| go | 1 | 5 | 3 | fast |" in
  ParseBenchOutput.parse content =
    [[lit "go"; lit "1"; lit "5"; lit "3"; lit "fast"]] /\
  ParseBenchSummary.parse content =
    [[lit "go"; lit "1"; lit "5"; lit "3"; lit "fast"]] /\
  List.map (@length str) (ParseBenchOutput.parse content) = [5].
Proof. vm_compute. repeat split; reflexivity. Qed.

(** C10: every field of every record, in both scripts, is a non-empty
    string without a pipe that neither starts nor ends with a whitespace
    character. *)
Theorem record_fields_stripped (content : str) (r : list str) (f : str) :
  In r (ParseBenchOutput.parse content) \/ In r (ParseBenchSummary.parse content) ->
  In f r ->
  f <> [] /\
  ~ In pipe f /\
  (forall c t, f = c :: t -> Py.isspace c = false) /\
  (forall t c, f = t ++ [c] -> Py.isspace c = false).
Proof.
  intros Hr Hf.
  assert (H : In r (results (flow_state (scan_flow (Py.split nl content) init_state)))).
  { destruct Hr as [Hr|Hr].
    - unfold ParseBenchOutput.parse in Hr. simpl in Hr.
      rewrite output_scan_eq in Hr. exact Hr.
    - unfold ParseBenchSummary.parse in Hr. simpl in Hr.
      rewrite summary_scan_eq in Hr. exact Hr. }
  apply scan_records in H as (line & _ & -> & _).
  apply fields_spec in Hf as (p & Hp & -> & Hne).
  split; [exact Hne|]. split; [|split].
  - intros Hin. apply strip_incl in Hin. exact (split_no_sep _ _ _ Hp Hin).
  - intros c t E. exact (strip_head _ _ _ E).
  - intros t c E. exact (strip_last _ _ _ E).
Qed.

Lemma record_fields_stripped_witness :
  lit "go lang" <> [] /\
  ~ In pipe (lit "go lang") /\
  (forall c t, lit "go lang" = c :: t -> Py.isspace c = false) /\
  (forall t c, lit "go lang" = t ++ [c] -> Py.isspace c = false).
Proof.
  apply (record_fields_stripped
           (lit "Runtime Min" ++ [nl] ++ lit "|  go lang | 1 | 5 | 3 |")
           [lit "go lang"; lit "1"; lit "5"; lit "3"]).
  - left. vm_compute. left. reflexivity.
  - left. reflexivity.
Defined.

(** ** The renderers *)

Lemma world_eta (w : world) : {| files := files w; stdout := stdout w |} = w.
Proof. destruct w; reflexivity. Qed.

Lemma getitem_ok (r : list str) (i : nat) (w : world) :
  i < length r -> getitem r i w = Returned (nth i r []) w.
Proof.
  intros H. unfold getitem.
  rewrite (nth_error_nth' r [] H). reflexivity.
Qed.

Lemma print_eq (text : str) (w : world) :
  print text w = Returned tt {| files := files w; stdout := stdout w ++ text ++ [nl] |}.
Proof. reflexivity. Qed.

Lemma bind_returned {A B : Type} (m : M A) (k : A -> M B) (w w' : world) (a : A) :
  m w = Returned a w' -> bind m k w = k a w'.
Proof. intros H. unfold bind. rewrite H. reflexivity. Qed.

Lemma output_print_row_ok (r : list str) (w : world) :
  4 <= length r ->
  ParseBenchOutput.print_row r w =
  Returned tt {| files := files w; stdout := stdout w ++ console_row r |}.
Proof.
  intros H. unfold ParseBenchOutput.print_row.
  rewrite (bind_returned _ _ _ _ _ (getitem_ok r 0 w ltac:(lia))).
  rewrite (bind_returned _ _ _ _ _ (getitem_ok r 1 w ltac:(lia))).
  rewrite (bind_returned _ _ _ _ _ (getitem_ok r 2 w ltac:(lia))).
  rewrite (bind_returned _ _ _ _ _ (getitem_ok r 3 w ltac:(lia))).
  rewrite print_eq. unfold console_row. rewrite <- !app_assoc. reflexivity.
Qed.

Lemma summary_print_row_eq (r : list str) :
  ParseBenchSummary.print_row r = ParseBenchOutput.print_row r.
Proof. reflexivity. Qed.

Lemma for_each_ext {A : Type} (f g : A -> M unit) (xs : list A) (w : world) :
  (forall x w', f x w' = g x w') ->
  for_each xs f w = for_each xs g w.
Proof.
  intros E. revert w; induction xs as [|x xs IH]; intros w; simpl; [reflexivity|].
  unfold bind. rewrite E. destruct (g x w); [apply IH | reflexivity].
Qed.

Lemma output_print_rows_ok (rs : list (list str)) (w : world) :
  Forall (fun r => 4 <= length r) rs ->
  for_each rs ParseBenchOutput.print_row w =
  Returned tt {| files := files w;
                 stdout := stdout w ++ concat (List.map console_row rs) |}.
Proof.
  intros H. revert w. induction H as [|r rs Hr _ IH]; intros w; simpl.
  - rewrite app_nil_r, world_eta. reflexivity.
  - rewrite (bind_returned _ _ _ _ _ (output_print_row_ok r w Hr)).
    rewrite IH. simpl. rewrite <- app_assoc. reflexivity.
Qed.

(** The table the console script prints for records of four fields or
    more, at least one of them. *)
Lemma output_report_table (rs : list (list str)) (w : world) :
  rs <> [] ->
  Forall (fun r => 4 <= length r) rs ->
  ParseBenchOutput.report rs w =
  Returned tt
    {| files := files w;
       stdout := stdout w ++
         [nl] ++ lit "| Runtime | Min   | Max   | Avg   |" ++ [nl] ++
         lit "|---------|-------|-------|-------|" ++ [nl] ++
         concat (List.map console_row rs) ++
         [nl] ++ lit "Total: " ++ Py.str_of_nat (length rs) ++
         lit " runtimes tested" ++ [nl] |}.
Proof.
  intros Hne H. unfold ParseBenchOutput.report.
  destruct rs as [|r rs']; [congruence|]. cbn [Py.truthy].
  remember (r :: rs') as rs.
  rewrite (bind_returned _ _ _ _ _ (print_eq _ w)).
  rewrite (bind_returned _ _ _ _ _ (print_eq _ _)).
  rewrite (bind_returned _ _ _ _ _ (output_print_rows_ok rs _ H)).
  rewrite print_eq. cbn [files stdout]. rewrite <- !app_assoc. reflexivity.
Qed.

Lemma summary_report_eq (rs : list (list str)) (w : world) :
  rs <> [] -> ParseBenchSummary.report rs w = ParseBenchOutput.report rs w.
Proof.
  intros Hne. destruct rs as [|r rs']; [congruence|]. reflexivity.
Qed.

Lemma output_report_empty (w : world) :
  ParseBenchOutput.report [] w =
  Returned tt {| files := files w;
                 stdout := stdout w ++ lit "No benchmark results found" ++ [nl] |}.
Proof. reflexivity. Qed.

Lemma summary_report_empty (w : world) :
  ParseBenchSummary.report [] w = Returned tt w.
Proof. reflexivity. Qed.

Lemma set_file_same (path : string) (text : str) (fs : string -> option str) :
  set_file path text fs path = Some text.
Proof. unfold set_file. rewrite String.eqb_refl. reflexivity. Qed.

Lemma set_file_other (path : string) (text : str) (fs : string -> option str) (q : string) :
  q <> path -> set_file path text fs q = fs q.
Proof.
  intros H. unfold set_file. apply String.eqb_neq in H. rewrite H. reflexivity.
Qed.

Lemma open_w_written (path : string) (w : world) :
  exists w', open_w path w = Returned tt w' /\ file_written path [] w w'.
Proof.
  eexists. split; [reflexivity|]. unfold file_written. simpl.
  split; [apply set_file_same|]. split; [|reflexivity].
  intros q Hq. apply set_file_other. exact Hq.
Qed.

Lemma write_written (path : string) (old text : str) (w0 w : world) :
  file_written path old w0 w ->
  exists w', write path text w = Returned tt w' /\
             file_written path (old ++ text) w0 w'.
Proof.
  intros (Hf & Ho & Hs). eexists. split; [reflexivity|].
  unfold file_written. simpl. rewrite Hf.
  split; [apply set_file_same|]. split; [|exact Hs].
  intros q Hq. rewrite set_file_other by exact Hq. apply Ho. exact Hq.
Qed.

Lemma write_row_written (path : string) (old : str) (r : list str) (w0 w : world) :
  4 <= length r ->
  file_written path old w0 w ->
  exists w', ParseBenchSummary.write_row path r w = Returned tt w' /\
             file_written path (old ++ markdown_row r) w0 w'.
Proof.
  intros H Hw. unfold ParseBenchSummary.write_row.
  rewrite (bind_returned _ _ _ _ _ (getitem_ok r 0 w ltac:(lia))).
  rewrite (bind_returned _ _ _ _ _ (getitem_ok r 1 w ltac:(lia))).
  rewrite (bind_returned _ _ _ _ _ (getitem_ok r 2 w ltac:(lia))).
  rewrite (bind_returned _ _ _ _ _ (getitem_ok r 3 w ltac:(lia))).
  destruct (write_written path old
              (lit "| " ++ nth 0 r [] ++ lit " | " ++ nth 1 r [] ++ lit " | " ++
               nth 2 r [] ++ lit " | " ++ nth 3 r [] ++ lit " |" ++ [nl]) w0 w Hw)
    as (w' & E & Hw').
  exists w'. split; [exact E | exact Hw'].
Qed.

Lemma write_rows_written
  (path : string) (rs : list (list str)) (old : str) (w0 w : world) :
  Forall (fun r => 4 <= length r) rs ->
  file_written path old w0 w ->
  exists w', for_each rs (ParseBenchSummary.write_row path) w = Returned tt w' /\
             file_written path (old ++ concat (List.map markdown_row rs)) w0 w'.
Proof.
  intros H. revert old w. induction H as [|r rs Hr _ IH]; intros old w Hw; simpl.
  - exists w. rewrite app_nil_r. split; [reflexivity | exact Hw].
  - destruct (write_row_written path old r w0 w Hr Hw) as (w1 & E1 & Hw1).
    rewrite (bind_returned _ _ _ _ _ E1).
    destruct (IH _ _ Hw1) as (w2 & E2 & Hw2).
    exists w2. split; [exact E2|]. rewrite <- app_assoc in Hw2. exact Hw2.
Qed.

(** The file the summary script leaves for records of four fields or
    more. *)
Lemma write_summary_written (rs : list (list str)) (w : world) :
  Forall (fun r => 4 <= length r) rs ->
  exists w', ParseBenchSummary.write_summary rs w = Returned tt w' /\
    file_written "bench-summary.md"
      ([nl] ++ lit "## Performance Benchmarks" ++ [nl; nl] ++
       lit "| Runtime | Min | Max | Avg |" ++ [nl] ++
       lit "|--------|-----|-----|-----|" ++ [nl] ++
       concat (List.map markdown_row rs) ++
       [nl] ++ lit "**Total runtimes tested:** " ++ Py.str_of_nat (length rs) ++ [nl])
      w w'.
Proof.
  intros H. unfold ParseBenchSummary.write_summary. cbv zeta.
  destruct (open_w_written "bench-summary.md" w) as (w1 & E1 & H1).
  rewrite (bind_returned _ _ _ _ _ E1).
  destruct (write_written "bench-summary.md" []
              ([nl] ++ lit "## Performance Benchmarks" ++ [nl; nl]) w w1 H1)
    as (w2 & E2 & H2).
  rewrite (bind_returned _ _ _ _ _ E2).
  destruct (write_written "bench-summary.md" _
              (lit "| Runtime | Min | Max | Avg |" ++ [nl]) w w2 H2)
    as (w3 & E3 & H3).
  rewrite (bind_returned _ _ _ _ _ E3).
  destruct (write_written "bench-summary.md" _
              (lit "|--------|-----|-----|-----|" ++ [nl]) w w3 H3)
    as (w4 & E4 & H4).
  rewrite (bind_returned _ _ _ _ _ E4).
  destruct (write_rows_written "bench-summary.md" rs _ w w4 H H4) as (w5 & E5 & H5).
  rewrite (bind_returned _ _ _ _ _ E5).
  destruct (write_written "bench-summary.md" _
              ([nl] ++ lit "**Total runtimes tested:** " ++
               Py.str_of_nat (length rs) ++ [nl]) w w5 H5)
    as (w6 & E6 & H6).
  exists w6. split; [exact E6|].
  cbn [app] in H6. rewrite <- !app_assoc in H6. cbn [app] in H6 |- *. exact H6.
Qed.

(** ** The scripts as wholes *)

Lemma parse_records (content : str) (r : list str) :
  In r (ParseBenchOutput.parse content) ->
  exists line, In line (Py.split nl content) /\ r = fields line /\
               guard (fields line) = true.
Proof.
  unfold ParseBenchOutput.parse. simpl. rewrite output_scan_eq. apply scan_records.
Qed.

Lemma summary_parse_eq (content : str) :
  ParseBenchSummary.parse content = ParseBenchOutput.parse content.
Proof.
  unfold ParseBenchOutput.parse, ParseBenchSummary.parse. simpl.
  rewrite output_scan_eq, summary_scan_eq. reflexivity.
Qed.

Lemma parse_four_fields (content : str) :
  Forall (fun r => 4 <= length r) (ParseBenchOutput.parse content).
Proof.
  apply Forall_forall. intros r Hr.
  apply parse_records in Hr as (line & _ & -> & Hg).
  apply guard_length. exact Hg.
Qed.

Lemma output_main_eq (content : str) (w : world) :
  files w "bench-output.log"%string = Some content ->
  ParseBenchOutput.main w = ParseBenchOutput.report (ParseBenchOutput.parse content) w.
Proof.
  intros H. unfold ParseBenchOutput.main, bind, read_file. rewrite H. reflexivity.
Qed.

Lemma summary_main_eq (content : str) (w : world) :
  files w "bench-output.log"%string = Some content ->
  ParseBenchSummary.main w =
  bind (ParseBenchSummary.write_summary (ParseBenchSummary.parse content))
       (fun _ => ParseBenchSummary.report (ParseBenchSummary.parse content)) w.
Proof.
  intros H. unfold ParseBenchSummary.main, read_file.
  unfold bind at 1. rewrite H. reflexivity.
Qed.

Lemma getitem_firstn (r : list str) (i : nat) :
  i < 4 -> getitem (firstn 4 r) i = getitem r i.
Proof.
  intros H. unfold getitem. rewrite nth_error_firstn.
  apply Nat.ltb_lt in H. rewrite H. reflexivity.
Qed.

Lemma output_print_row_firstn (r : list str) :
  ParseBenchOutput.print_row (firstn 4 r) = ParseBenchOutput.print_row r.
Proof.
  unfold ParseBenchOutput.print_row.
  rewrite !getitem_firstn by lia. reflexivity.
Qed.

Lemma write_row_firstn (path : string) (r : list str) :
  ParseBenchSummary.write_row path (firstn 4 r) = ParseBenchSummary.write_row path r.
Proof.
  unfold ParseBenchSummary.write_row.
  rewrite !getitem_firstn by lia. reflexivity.
Qed.

Lemma for_each_map {A B : Type} (g : A -> B) (f : B -> M unit) (xs : list A) (w : world) :
  for_each (List.map g xs) f w = for_each xs (fun x => f (g x)) w.
Proof.
  revert w; induction xs as [|x xs IH]; intros w; simpl; [reflexivity|].
  unfold bind. destruct (f (g x) w); [apply IH | reflexivity].
Qed.

Lemma bind_ext {A B : Type} (m m' : M A) (k k' : A -> M B) (w : world) :
  m w = m' w -> (forall a w', k a w' = k' a w') -> bind m k w = bind m' k' w.
Proof.
  intros Hm Hk. unfold bind. rewrite Hm. destruct (m' w); [apply Hk | reflexivity].
Qed.

Lemma for_each_firstn (f : list str -> M unit) (rs : list (list str)) (w : world) :
  (forall r, f (firstn 4 r) = f r) ->
  for_each (List.map (firstn 4) rs) f w = for_each rs f w.
Proof.
  intros E. rewrite for_each_map. apply for_each_ext.
  intros r w'. rewrite E. reflexivity.
Qed.

Lemma output_report_firstn (rs : list (list str)) (w : world) :
  ParseBenchOutput.report (List.map (firstn 4) rs) w = ParseBenchOutput.report rs w.
Proof.
  unfold ParseBenchOutput.report. rewrite length_map.
  destruct rs as [|r rs']; [reflexivity|].
  remember (r :: rs') as rs. replace (Py.truthy (List.map (firstn 4) rs)) with true
    by (subst rs; reflexivity).
  replace (Py.truthy rs) with true by (subst rs; reflexivity).
  apply bind_ext; [reflexivity|]. intros _ w1.
  apply bind_ext; [reflexivity|]. intros _ w2.
  apply bind_ext; [|reflexivity].
  apply for_each_firstn. exact output_print_row_firstn.
Qed.

Lemma summary_report_firstn (rs : list (list str)) (w : world) :
  ParseBenchSummary.report (List.map (firstn 4) rs) w = ParseBenchSummary.report rs w.
Proof.
  destruct rs as [|r rs']; [reflexivity|].
  rewrite !summary_report_eq by discriminate.
  apply (output_report_firstn (r :: rs')).
Qed.

Lemma write_summary_firstn (rs : list (list str)) (w : world) :
  ParseBenchSummary.write_summary (List.map (firstn 4) rs) w =
  ParseBenchSummary.write_summary rs w.
Proof.
  unfold ParseBenchSummary.write_summary. cbv zeta. rewrite length_map.
  apply bind_ext; [reflexivity|]. intros _ w1.
  apply bind_ext; [reflexivity|]. intros _ w2.
  apply bind_ext; [reflexivity|]. intros _ w3.
  apply bind_ext; [reflexivity|]. intros _ w4.
  apply bind_ext; [|reflexivity].
  apply for_each_firstn. intros r. apply write_row_firstn.
Qed.

(** C3 (amended): every record of a parse has at least four fields, and
    it is the whole field list of its line: nothing is cut at parsing.
    The renderers of both scripts read the first four fields only, so what
    they print and write is the same as for the records cut to four. *)
Theorem record_has_four_fields_or_more
  (content : str) (r : list str) (rs : list (list str)) (w : world) :
  In r (ParseBenchOutput.parse content) \/ In r (ParseBenchSummary.parse content) ->
  4 <= length r /\
  (exists line, In line (Py.split nl content) /\ r = fields line) /\
  ParseBenchOutput.report (List.map (firstn 4) rs) w = ParseBenchOutput.report rs w /\
  ParseBenchSummary.report (List.map (firstn 4) rs) w = ParseBenchSummary.report rs w /\
  ParseBenchSummary.write_summary (List.map (firstn 4) rs) w =
    ParseBenchSummary.write_summary rs w.
Proof.
  intros Hr.
  assert (H : In r (ParseBenchOutput.parse content)).
  { destruct Hr as [Hr|Hr]; [exact Hr|]. rewrite summary_parse_eq in Hr. exact Hr. }
  apply parse_records in H as (line & Hl & -> & Hg).
  split; [apply guard_length; exact Hg|].
  split; [exists line; split; [exact Hl | reflexivity]|].
  split; [apply output_report_firstn|].
  split; [apply summary_report_firstn | apply write_summary_firstn].
Qed.

Lemma record_has_four_fields_or_more_witness :
  4 <= length [lit "go"; lit "1"; lit "5"; lit "3"; lit "fast"].
Proof.
  refine (proj1 (record_has_four_fields_or_more
            (lit "Runtime Min Max Avg" ++ [nl] ++ lit "| go | 1 | 5 | 3 | fast |")
            [lit "go"; lit "1"; lit "5"; lit "3"; lit "fast"] []
            (world_with_log []) _)).
  left. vm_compute. left. reflexivity.
Defined.

(** C5, as stated, fails: the summary script has no [else] after its
    table, so for a log without records it prints nothing where the
    console script prints its line. *)
Lemma summary_silent_without_records :
  let w := world_with_log (lit "no table here") in
  has_returned (ParseBenchOutput.main w) = true /\
  has_returned (ParseBenchSummary.main w) = true /\
  stdout (final_world (ParseBenchOutput.main w)) =
    lit "No benchmark results found" ++ [nl] /\
  stdout (final_world (ParseBenchSummary.main w)) = [].
Proof. vm_compute. repeat split; reflexivity. Qed.

(** C5 (amended): when [bench-output.log] exists, both scripts return;
    the summary script leaves a [bench-summary.md]; when the parse gives
    at least one record it prints exactly what the console script prints;
    when the parse gives none it prints nothing, while the console script
    prints its informational line. *)
Theorem summary_prints_console_table (content : str) (w : world) :
  files w "bench-output.log"%string = Some content ->
  exists wo ws,
    ParseBenchOutput.main w = Returned tt wo /\
    ParseBenchSummary.main w = Returned tt ws /\
    (exists text, files ws "bench-summary.md"%string = Some text) /\
    (ParseBenchSummary.parse content <> [] -> stdout ws = stdout wo) /\
    (ParseBenchSummary.parse content = [] ->
       stdout ws = stdout w /\
       stdout wo = stdout w ++ lit "No benchmark results found" ++ [nl]).
Proof.
  intros Hlog.
  rewrite (output_main_eq content w Hlog), (summary_main_eq content w Hlog).
  change (ParseBenchSummary.parse content) with (ParseBenchOutput.parse content).
  pose proof (parse_four_fields content) as H4.
  destruct (write_summary_written _ w H4) as (w1 & E1 & Hf & Ho & Hs).
  rewrite (bind_returned _ _ _ _ _ E1).
  destruct (ParseBenchOutput.parse content) as [|r rs'] eqn:E.
  - exists {| files := files w;
              stdout := stdout w ++ lit "No benchmark results found" ++ [nl] |}, w1.
    split; [reflexivity|]. split; [reflexivity|].
    split; [eexists; exact Hf|]. split; [congruence|]. intros _.
    split; [exact Hs | reflexivity].
  - rewrite summary_report_eq by discriminate.
    rewrite !output_report_table by (assumption || discriminate).
    eexists. eexists. split; [reflexivity|]. split; [reflexivity|].
    cbn [files stdout]. split; [eexists; exact Hf|].
    split; [|discriminate]. intros _. rewrite Hs. reflexivity.
Qed.

Lemma summary_prints_console_table_witness :
  exists wo ws,
    ParseBenchOutput.main (world_with_log (lit "Runtime Min" ++ [nl] ++ lit "a|b|c|d")) =
      Returned tt wo /\
    ParseBenchSummary.main (world_with_log (lit "Runtime Min" ++ [nl] ++ lit "a|b|c|d")) =
      Returned tt ws /\
    stdout ws = stdout wo.
Proof.
  destruct (summary_prints_console_table
              (lit "Runtime Min" ++ [nl] ++ lit "a|b|c|d")
              (world_with_log (lit "Runtime Min" ++ [nl] ++ lit "a|b|c|d")) eq_refl)
    as (wo & ws & Eo & Es & _ & Hne & _).
  exists wo, ws. split; [exact Eo|]. split; [exact Es|].
  apply Hne. vm_compute. discriminate.
Defined.

(** C7: a log without a header line, or one in which no line passes the
    field-count and header guard, parses to no record in both scripts,
    whatever pipe-delimited lines it holds; the console script then prints
    the one line "No benchmark results found" and returns without an
    exception. *)
Theorem no_table_is_not_an_error (content : str) (w : world) :
  files w "bench-output.log"%string = Some content ->
  Forall (fun l => is_header l = false) (Py.split nl content) \/
  Forall (fun l => guard (fields l) = false) (Py.split nl content) ->
  ParseBenchOutput.parse content = [] /\
  ParseBenchSummary.parse content = [] /\
  ParseBenchOutput.main w =
    Returned tt {| files := files w;
                   stdout := stdout w ++ lit "No benchmark results found" ++ [nl] |}.
Proof.
  intros Hlog H.
  assert (E : ParseBenchOutput.parse content = []).
  { unfold ParseBenchOutput.parse. simpl. rewrite output_scan_eq.
    destruct H as [H|H].
    - rewrite (scan_flow_seeking _ init_state eq_refl H). reflexivity.
    - rewrite (scan_flow_no_guard _ init_state H). reflexivity. }
  split; [exact E|]. split; [rewrite summary_parse_eq; exact E|].
  rewrite (output_main_eq content w Hlog), E. apply output_report_empty.
Qed.

Lemma no_table_is_not_an_error_witness :
  ParseBenchOutput.parse (lit "| go | 1 | 5 | 3 |" ++ [nl] ++ lit "| rust | 1 | 2 | 1 |") = [] /\
  ParseBenchOutput.parse (lit "Runtime Min" ++ [nl] ++ lit "| go | 1 | 5 |") = [].
Proof.
  split.
  - refine (proj1 (no_table_is_not_an_error
              (lit "| go | 1 | 5 | 3 |" ++ [nl] ++ lit "| rust | 1 | 2 | 1 |")
              (world_with_log
                 (lit "| go | 1 | 5 | 3 |" ++ [nl] ++ lit "| rust | 1 | 2 | 1 |"))
              eq_refl _)).
    left. vm_compute. repeat constructor.
  - refine (proj1 (no_table_is_not_an_error
              (lit "Runtime Min" ++ [nl] ++ lit "| go | 1 | 5 |")
              (world_with_log (lit "Runtime Min" ++ [nl] ++ lit "| go | 1 | 5 |"))
              eq_refl _)).
    right. vm_compute. repeat constructor.
Defined.

(** C8: for records of four fields or more, none included, the summary
    script's writer returns and leaves in [bench-summary.md] the heading
    "## Performance Benchmarks", the header row, the dash row, one row per
    record with its first four fields as they are between the bars, and
    the bold total line with the number of records; other files and
    standard output are untouched.  Without records the file holds the
    heading, the two rows and a total of 0. *)
Theorem markdown_summary_written (rs : list (list str)) (w : world) :
  Forall (fun r => 4 <= length r) rs ->
  let row (r : list str) :=
    lit "| " ++ nth 0 r [] ++ lit " | " ++ nth 1 r [] ++ lit " | " ++ nth 2 r [] ++
    lit " | " ++ nth 3 r [] ++ lit " |" ++ [nl] in
  (exists w',
     ParseBenchSummary.write_summary rs w = Returned tt w' /\
     files w' "bench-summary.md"%string =
       Some ([nl] ++ lit "## Performance Benchmarks" ++ [nl; nl] ++
             lit "| Runtime | Min | Max | Avg |" ++ [nl] ++
             lit "|--------|-----|-----|-----|" ++ [nl] ++
             concat (List.map row rs) ++
             [nl] ++ lit "**Total runtimes tested:** " ++
             Py.str_of_nat (length rs) ++ [nl]) /\
     (forall q, q <> "bench-summary.md"%string -> files w' q = files w q) /\
     stdout w' = stdout w) /\
  (exists w0,
     ParseBenchSummary.write_summary [] w = Returned tt w0 /\
     files w0 "bench-summary.md"%string =
       Some ([nl] ++ lit "## Performance Benchmarks" ++ [nl; nl] ++
             lit "| Runtime | Min | Max | Avg |" ++ [nl] ++
             lit "|--------|-----|-----|-----|" ++ [nl] ++
             [nl] ++ lit "**Total runtimes tested:** 0" ++ [nl])).
Proof.
  intros H row. split.
  - destruct (write_summary_written rs w H) as (w' & E & Hw).
    exists w'. split; [exact E | exact Hw].
  - destruct (write_summary_written [] w (Forall_nil _)) as (w0 & E & Hf & _).
    exists w0. split; [exact E|]. rewrite Hf. reflexivity.
Qed.

Lemma markdown_summary_written_witness :
  exists w',
    ParseBenchSummary.write_summary
      [[lit "go"; lit "1.2"; lit "5.6"; lit "3.1"]] (world_with_log []) =
      Returned tt w' /\
    files w' "bench-summary.md"%string =
      Some ([nl] ++ lit "## Performance Benchmarks" ++ [nl; nl] ++
            lit "| Runtime | Min | Max | Avg |" ++ [nl] ++
            lit "|--------|-----|-----|-----|" ++ [nl] ++
            lit "| go | 1.2 | 5.6 | 3.1 |" ++ [nl] ++
            [nl] ++ lit "**Total runtimes tested:** 1" ++ [nl]).
Proof.
  destruct (markdown_summary_written
              [[lit "go"; lit "1.2"; lit "5.6"; lit "3.1"]] (world_with_log []))
    as ((w' & E & Hf & _) & _).
  - repeat constructor.
  - exists w'. split; [exact E|]. rewrite Hf. reflexivity.
Defined.

(** C9: for records of four fields or more, at least one, the console
    script's renderer returns having printed a header row, a dash row, one
    row per record in which the first field is followed by spaces up to
    width 7 and the next three by spaces up to width 5, with " | " between
    the fields and a bar at each end, and the total line.  The row of
    ("go", "1.2", "5.6", "3.1") is "| go      | 1.2   | 5.6   | 3.1   |". *)
Theorem console_table_printed (rs : list (list str)) (w : world) :
  rs <> [] ->
  Forall (fun r => 4 <= length r) rs ->
  let ljust (n : nat) (s : str) := s ++ repeat space (n - length s) in
  let row (r : list str) :=
    lit "| " ++ ljust 7 (nth 0 r []) ++ lit " | " ++ ljust 5 (nth 1 r []) ++
    lit " | " ++ ljust 5 (nth 2 r []) ++ lit " | " ++ ljust 5 (nth 3 r []) ++
    lit " |" ++ [nl] in
  ParseBenchOutput.report rs w =
    Returned tt
      {| files := files w;
         stdout := stdout w ++
           [nl] ++ lit "| Runtime | Min   | Max   | Avg   |" ++ [nl] ++
           lit "|---------|-------|-------|-------|" ++ [nl] ++
           concat (List.map row rs) ++
           [nl] ++ lit "Total: " ++ Py.str_of_nat (length rs) ++
           lit " runtimes tested" ++ [nl] |} /\
  row [lit "go"; lit "1.2"; lit "5.6"; lit "3.1"] =
    lit "| go      | 1.2   | 5.6   | 3.1   |" ++ [nl] /\
  ParseBenchOutput.print_row [lit "go"; lit "1.2"; lit "5.6"; lit "3.1"] w =
    Returned tt
      {| files := files w;
         stdout := stdout w ++ lit "| go      | 1.2   | 5.6   | 3.1   |" ++ [nl] |}.
Proof.
  intros Hne H ljust row. split; [|split].
  - exact (output_report_table rs w Hne H).
  - reflexivity.
  - rewrite output_print_row_ok by (simpl; lia). reflexivity.
Qed.

Lemma console_table_printed_witness :
  ParseBenchOutput.report [[lit "go"; lit "1.2"; lit "5.6"; lit "3.1"]] (world_with_log []) =
  Returned tt
    {| files := files (world_with_log []);
       stdout :=
         [nl] ++ lit "| Runtime | Min   | Max   | Avg   |" ++ [nl] ++
         lit "|---------|-------|-------|-------|" ++ [nl] ++
         lit "| go      | 1.2   | 5.6   | 3.1   |" ++ [nl] ++
         [nl] ++ lit "Total: 1 runtimes tested" ++ [nl] |}.
Proof.
  refine (eq_trans (proj1 (console_table_printed
            [[lit "go"; lit "1.2"; lit "5.6"; lit "3.1"]] (world_with_log []) _ _)) _).
  - discriminate.
  - repeat constructor.
  - reflexivity.
Defined.

(** * Further properties of the scripts *)

(** ** The loop as a pipeline *)

(** In the table, the loop appends the record rows up to the first blank
    line. *)
Lemma scan_flow_in_table_pipeline (lines : list str) (st : scan_state) :
  in_table st = true ->
  results (flow_state (scan_flow lines st)) =
  results st ++
  List.map fields
    (List.filter is_record_row (take_while (fun l => negb (is_blank l)) lines)).
Proof.
  revert st; induction lines as [|l lines IH]; intros st Hst.
  - simpl. rewrite app_nil_r. reflexivity.
  - unfold scan_flow in *. cbn [for_in_flow take_while].
    destruct (is_blank l) eqn:Hb.
    + rewrite (scan_body_blank _ _ Hst Hb). simpl. rewrite app_nil_r. reflexivity.
    + cbn [negb filter]. unfold is_record_row at 1, is_valid_row.
      destruct (is_header l) eqn:Hh.
      * rewrite (scan_body_header _ _ Hh). cbn [negb andb].
        rewrite IH by reflexivity. reflexivity.
      * cbn [negb andb]. destruct (is_candidate l) eqn:Hc.
        -- rewrite (scan_body_candidate _ _ Hst Hh Hc). cbn [andb].
           rewrite IH by reflexivity. cbn [results].
           destruct (guard (fields l)).
           ++ rewrite <- app_assoc. reflexivity.
           ++ rewrite app_nil_r. reflexivity.
        -- cbn [andb]. unfold scan_body. rewrite Hh, Hc, Hb, !andb_false_r.
           apply IH. exact Hst.
Qed.

Lemma scan_flow_pipeline (lines : list str) :
  results (flow_state (scan_flow lines init_state)) = parse_pipeline lines.
Proof.
  unfold parse_pipeline, table_region.
  induction lines as [|l lines IH]; [reflexivity|].
  unfold scan_flow in *. cbn [for_in_flow Py.dropwhile].
  destruct (is_header l) eqn:Hh.
  - rewrite (scan_body_header _ _ Hh). cbn [negb tl].
    apply (scan_flow_in_table_pipeline lines
             {| in_table := true; results := results init_state |} eq_refl).
  - unfold scan_body. rewrite Hh. cbn [in_table init_state andb negb]. exact IH.
Qed.

(** X1: on every list of lines, the loops of both scripts compute what the
    pipeline computes: the lines after the first header line, up to the
    first blank line, filtered to the candidate rows that are no header
    lines and pass the guard, each turned into its fields. *)
Theorem scan_is_pipeline (lines : list str) :
  ParseBenchOutput.scan lines = parse_pipeline lines /\
  ParseBenchSummary.scan lines = parse_pipeline lines.
Proof.
  split; [rewrite output_scan_eq | rewrite summary_scan_eq];
    apply scan_flow_pipeline.
Qed.

Lemma scan_flow_prefix (pre rest : list str) :
  Forall (fun l => is_header l = false) pre ->
  scan_flow (pre ++ rest) init_state = scan_flow rest init_state.
Proof.
  intros H. unfold scan_flow. rewrite for_in_flow_app.
  fold (scan_flow pre init_state).
  rewrite (scan_flow_seeking pre init_state eq_refl H). reflexivity.
Qed.

(** X2: lines before the first header line do not count, whatever they
    are: rows with pipes there give no record and blank lines there do
    not end the scan. *)
Theorem lines_before_header_ignored (pre rest : list str) :
  Forall (fun l => is_header l = false) pre ->
  ParseBenchOutput.scan (pre ++ rest) = ParseBenchOutput.scan rest /\
  ParseBenchSummary.scan (pre ++ rest) = ParseBenchSummary.scan rest.
Proof.
  intros H.
  split; [rewrite !output_scan_eq | rewrite !summary_scan_eq];
    rewrite (scan_flow_prefix pre rest H); reflexivity.
Qed.

Lemma lines_before_header_ignored_witness :
  ParseBenchOutput.scan
    ([lit "| c | 9 | 9 | 9 |"; []] ++ [lit "Runtime Min"; lit "| go | 1 | 5 | 3 |"]) =
  ParseBenchOutput.scan [lit "Runtime Min"; lit "| go | 1 | 5 | 3 |"].
Proof.
  refine (proj1 (lines_before_header_ignored
            [lit "| c | 9 | 9 | 9 |"; []]
            [lit "Runtime Min"; lit "| go | 1 | 5 | 3 |"] _)).
  repeat constructor.
Defined.

Lemma scan_flow_header_skipped (before : list str) (l : str) (rest : list str) :
  existsb is_header before = true ->
  is_header l = true ->
  scan_flow (before ++ l :: rest) init_state = scan_flow (before ++ rest) init_state.
Proof.
  intros Hh Hl. pose proof (scan_flow_started before init_state Hh) as Hin.
  unfold scan_flow in *. rewrite !for_in_flow_app.
  destruct (for_in_flow scan_body before init_state) as [st|st]; [|reflexivity].
  simpl in *. rewrite (scan_body_header _ _ Hl), <- Hin, scan_state_eta. reflexivity.
Qed.

(** X3: a header line met again after the table has started changes
    nothing: the records found so far are kept, the scan goes on, and the
    result is that of the input without the line. *)
Theorem repeated_header_ignored (before : list str) (l : str) (rest : list str) :
  existsb is_header before = true ->
  is_header l = true ->
  ParseBenchOutput.scan (before ++ l :: rest) = ParseBenchOutput.scan (before ++ rest) /\
  ParseBenchSummary.scan (before ++ l :: rest) = ParseBenchSummary.scan (before ++ rest).
Proof.
  intros Hh Hl.
  split; [rewrite !output_scan_eq | rewrite !summary_scan_eq];
    rewrite (scan_flow_header_skipped before l rest Hh Hl); reflexivity.
Qed.

Lemma repeated_header_ignored_witness :
  ParseBenchOutput.scan
    ([lit "Runtime Min"; lit "| go | 1 | 5 | 3 |"] ++
     lit "| Runtime | Min | Max | Avg |" :: [lit "| rust | 1 | 2 | 1 |"]) =
  ParseBenchOutput.scan
    ([lit "Runtime Min"; lit "| go | 1 | 5 | 3 |"] ++ [lit "| rust | 1 | 2 | 1 |"]).
Proof.
  refine (proj1 (repeated_header_ignored
            [lit "Runtime Min"; lit "| go | 1 | 5 | 3 |"]
            (lit "| Runtime | Min | Max | Avg |") [lit "| rust | 1 | 2 | 1 |"] _ _)).
  - vm_compute. reflexivity.
  - vm_compute. reflexivity.
Defined.

Lemma py_eqb_eq (a b : str) : Py.eqb a b = true <-> a = b.
Proof.
  revert b; induction a as [|x a IH]; intros [|y b]; simpl;
    try (split; [discriminate | congruence]); [tauto|].
  rewrite andb_true_iff, N.eqb_eq, IH. split.
  - intros [-> ->]. reflexivity.
  - intros H. injection H as -> ->. tauto.
Qed.

(** X4: no record of a parse has the header's first word as its first
    field, in either script. *)
Theorem no_record_named_runtime (content : str) (r : list str) :
  In r (ParseBenchOutput.parse content) \/ In r (ParseBenchSummary.parse content) ->
  nth 0 r [] <> lit "Runtime".
Proof.
  intros Hr.
  assert (H : In r (ParseBenchOutput.parse content)).
  { destruct Hr as [Hr|Hr]; [exact Hr|]. rewrite summary_parse_eq in Hr. exact Hr. }
  apply parse_records in H as (line & _ & -> & Hg).
  unfold guard in Hg. apply andb_true_iff in Hg as [_ Hg].
  apply negb_true_iff in Hg. intros E. apply py_eqb_eq in E. congruence.
Qed.

Lemma no_record_named_runtime_witness :
  nth 0 [lit "go"; lit "1"; lit "5"; lit "3"] [] <> lit "Runtime".
Proof.
  apply (no_record_named_runtime
           (lit "Runtime Min" ++ [nl] ++ lit "| Runtime | 0 | 0 | 0 |" ++ [nl] ++
            lit "| go | 1 | 5 | 3 |")).
  left. vm_compute. left. reflexivity.
Defined.

(** ** Runs of the scripts *)

Lemma output_main_missing (w : world) :
  files w "bench-output.log"%string = None ->
  ParseBenchOutput.main w = Raised (FileNotFoundError "bench-output.log") w.
Proof.
  intros H. unfold ParseBenchOutput.main, bind, read_file. rewrite H. reflexivity.
Qed.

Lemma summary_main_missing (w : world) :
  files w "bench-output.log"%string = None ->
  ParseBenchSummary.main w = Raised (FileNotFoundError "bench-output.log") w.
Proof.
  intros H. unfold ParseBenchSummary.main, read_file.
  unfold bind at 1. rewrite H. reflexivity.
Qed.

(** The console script's report returns, with the files as they were and
    some text added to standard output. *)
Lemma output_report_returns (rs : list (list str)) (w : world) :
  Forall (fun r => 4 <= length r) rs ->
  exists t, ParseBenchOutput.report rs w =
            Returned tt {| files := files w; stdout := stdout w ++ t |}.
Proof.
  intros H. destruct rs as [|r rs'].
  - eexists. apply output_report_empty.
  - eexists. apply output_report_table; [discriminate | exact H].
Qed.

Lemma summary_report_returns (rs : list (list str)) (w : world) :
  Forall (fun r => 4 <= length r) rs ->
  exists t, ParseBenchSummary.report rs w =
            Returned tt {| files := files w; stdout := stdout w ++ t |} /\
            (forall w', ParseBenchSummary.report rs w' =
                        Returned tt {| files := files w'; stdout := stdout w' ++ t |}).
Proof.
  intros H. destruct rs as [|r rs'].
  - exists []. split; [|intros w']; rewrite summary_report_empty, app_nil_r, world_eta;
      reflexivity.
  - eexists. split; [|intros w']; rewrite summary_report_eq by discriminate;
      apply output_report_table; (discriminate || exact H).
Qed.

Lemma output_main_returns (content : str) (w : world) :
  files w "bench-output.log"%string = Some content ->
  exists t, ParseBenchOutput.main w =
            Returned tt {| files := files w; stdout := stdout w ++ t |}.
Proof.
  intros H. rewrite (output_main_eq content w H).
  apply output_report_returns, parse_four_fields.
Qed.

(** The text the summary script leaves in [bench-summary.md] for the
    records [rs]. *)
Lemma summary_main_written (content : str) (w : world) :
  files w "bench-output.log"%string = Some content ->
  exists w' t,
    ParseBenchSummary.main w = Returned tt w' /\
    files w' "bench-summary.md"%string =
      Some ([nl] ++ lit "## Performance Benchmarks" ++ [nl; nl] ++
            lit "| Runtime | Min | Max | Avg |" ++ [nl] ++
            lit "|--------|-----|-----|-----|" ++ [nl] ++
            concat (List.map markdown_row (ParseBenchSummary.parse content)) ++
            [nl] ++ lit "**Total runtimes tested:** " ++
            Py.str_of_nat (length (ParseBenchSummary.parse content)) ++ [nl]) /\
    (forall q, q <> "bench-summary.md"%string -> files w' q = files w q) /\
    stdout w' = stdout w ++ t /\
    (forall v, ParseBenchSummary.report (ParseBenchSummary.parse content) v =
               Returned tt {| files := files v; stdout := stdout v ++ t |}).
Proof.
  intros Hlog. rewrite (summary_main_eq content w Hlog).
  change (ParseBenchSummary.parse content) with (ParseBenchOutput.parse content).
  pose proof (parse_four_fields content) as H4.
  destruct (write_summary_written _ w H4) as (w1 & E1 & Hf & Ho & Hs).
  rewrite (bind_returned _ _ _ _ _ E1).
  destruct (summary_report_returns _ w1 H4) as (t & Et & Hall).
  exists {| files := files w1; stdout := stdout w1 ++ t |}, t.
  split; [exact Et|]. cbn [files stdout].
  split; [exact Hf|]. split; [exact Ho|]. split; [rewrite Hs; reflexivity | exact Hall].
Qed.


(** X6: the console script never changes a file, and what was on standard
    output before stays there: it only adds text after it. *)
Theorem console_script_leaves_files (w : world) :
  files (final_world (ParseBenchOutput.main w)) = files w /\
  exists t, stdout (final_world (ParseBenchOutput.main w)) = stdout w ++ t.
Proof.
  destruct (files w "bench-output.log"%string) as [content|] eqn:E.
  - destruct (output_main_returns content w E) as (t & ->).
    split; [reflexivity | exists t; reflexivity].
  - rewrite (output_main_missing w E).
    split; [reflexivity | exists []; rewrite app_nil_r; reflexivity].
Qed.

(** X7: when the log exists, the summary script returns with
    [bench-summary.md] holding the heading, the header and dash rows, one
    row per parsed record and the total, whatever the file held before;
    every other file, the log included, is as it was, and standard output
    is only added to. *)
Theorem summary_script_run (content : str) (w : world) :
  files w "bench-output.log"%string = Some content ->
  let rs := ParseBenchSummary.parse content in
  let row (r : list str) :=
    lit "| " ++ nth 0 r [] ++ lit " | " ++ nth 1 r [] ++ lit " | " ++ nth 2 r [] ++
    lit " | " ++ nth 3 r [] ++ lit " |" ++ [nl] in
  exists w',
    ParseBenchSummary.main w = Returned tt w' /\
    files w' "bench-summary.md"%string =
      Some ([nl] ++ lit "## Performance Benchmarks" ++ [nl; nl] ++
            lit "| Runtime | Min | Max | Avg |" ++ [nl] ++
            lit "|--------|-----|-----|-----|" ++ [nl] ++
            concat (List.map row rs) ++
            [nl] ++ lit "**Total runtimes tested:** " ++
            Py.str_of_nat (length rs) ++ [nl]) /\
    (forall q, q <> "bench-summary.md"%string -> files w' q = files w q) /\
    files w' "bench-output.log"%string = Some content /\
    exists t, stdout w' = stdout w ++ t.
Proof.
  intros Hlog rs row.
  destruct (summary_main_written content w Hlog) as (w' & t & E & Hf & Ho & Hs & _).
  exists w'. split; [exact E|]. split; [exact Hf|]. split; [exact Ho|].
  split; [|exists t; exact Hs].
  rewrite Ho; [exact Hlog | discriminate].
Qed.

Lemma summary_script_run_witness :
  exists w',
    ParseBenchSummary.main
      (world_with_log (lit "Runtime Min" ++ [nl] ++ lit "| go | 1 | 5 | 3 | x |")) =
      Returned tt w' /\
    files w' "bench-summary.md"%string =
      Some ([nl] ++ lit "## Performance Benchmarks" ++ [nl; nl] ++
            lit "| Runtime | Min | Max | Avg |" ++ [nl] ++
            lit "|--------|-----|-----|-----|" ++ [nl] ++
            lit "| go | 1 | 5 | 3 |" ++ [nl] ++
            [nl] ++ lit "**Total runtimes tested:** 1" ++ [nl]).
Proof.
  destruct (summary_script_run
              (lit "Runtime Min" ++ [nl] ++ lit "| go | 1 | 5 | 3 | x |")
              (world_with_log (lit "Runtime Min" ++ [nl] ++ lit "| go | 1 | 5 | 3 | x |"))
              eq_refl) as (w' & E & Hf & _).
  exists w'. split; [exact E|]. rewrite Hf. reflexivity.
Defined.

(** X8: running the summary script again right after a run that returned
    leaves every file exactly as the first run left it, and prints the
    same text once more. *)
Theorem summary_script_rerun (w w1 : world) :
  ParseBenchSummary.main w = Returned tt w1 ->
  exists w2 t,
    ParseBenchSummary.main w1 = Returned tt w2 /\
    (forall q, files w2 q = files w1 q) /\
    stdout w1 = stdout w ++ t /\
    stdout w2 = stdout w1 ++ t.
Proof.
  intros E1.
  destruct (files w "bench-output.log"%string) as [content|] eqn:Hlog.
  - destruct (summary_main_written content w Hlog)
      as (w1' & t & E1' & Hf & Ho & Hs & Hrep).
    rewrite E1' in E1. injection E1 as ->.
    assert (Hlog1 : files w1 "bench-output.log"%string = Some content).
    { rewrite Ho; [exact Hlog | discriminate]. }
    destruct (summary_main_written content w1 Hlog1)
      as (w2 & t2 & E2 & Hf2 & Ho2 & Hs2 & Hrep2).
    exists w2, t. split; [exact E2|]. split; [|split; [exact Hs|]].
    + intros q. destruct (String.eqb q "bench-summary.md") eqn:Eq.
      * apply String.eqb_eq in Eq. subst q. rewrite Hf2, Hf. reflexivity.
      * apply String.eqb_neq in Eq. apply Ho2. exact Eq.
    + rewrite Hs2. f_equal.
      pose proof (Hrep w) as R1. rewrite (Hrep2 w) in R1.
      injection R1 as R1. apply app_inv_head in R1. exact R1.
  - rewrite (summary_main_missing w Hlog) in E1. discriminate.
Qed.

Lemma summary_script_rerun_witness :
  exists w2 t,
    ParseBenchSummary.main
      (final_world (ParseBenchSummary.main
         (world_with_log (lit "Runtime Min" ++ [nl] ++ lit "| go | 1 | 5 | 3 |")))) =
      Returned tt w2 /\
    stdout w2 = t ++ t.
Proof.
  destruct (summary_script_rerun
              (world_with_log (lit "Runtime Min" ++ [nl] ++ lit "| go | 1 | 5 | 3 |"))
              (final_world (ParseBenchSummary.main
                 (world_with_log (lit "Runtime Min" ++ [nl] ++ lit "| go | 1 | 5 | 3 |")))))
    as (w2 & t & E & _ & H1 & H2).
  - vm_compute. reflexivity.
  - exists w2, t. split; [exact E|]. rewrite H2, H1. reflexivity.
Defined.

(** ** The shape of a rendered row *)

Lemma split_incl (sep : char) (s p : str) (c : char) :
  In p (Py.split sep s) -> In c p -> In c s.
Proof.
  revert p; induction s as [|x s IH]; intros p; simpl.
  - intros [<-|[]] [].
  - destruct (N.eqb x sep).
    + intros [<-|H] Hc; [destruct Hc | right; exact (IH p H Hc)].
    + destruct (Py.split sep s) as [|q qs].
      * intros [<-|[]] [->|[]]. left; reflexivity.
      * intros [<-|H] Hc.
        -- destruct Hc as [->|Hc]; [left; reflexivity|].
           right. apply (IH q); [left; reflexivity | exact Hc].
        -- right. apply (IH p); [right; exact H | exact Hc].
Qed.

(** A field of a line of the text holds neither a pipe nor a newline. *)
Lemma record_field_chars (content : str) (r : list str) (f : str) :
  In r (ParseBenchOutput.parse content) -> In f r ->
  ~ In pipe f /\ ~ In nl f.
Proof.
  intros Hr Hf. apply parse_records in Hr as (line & Hl & -> & _).
  apply fields_spec in Hf as (p & Hp & -> & _). split; intros Hin.
  - apply strip_incl in Hin. exact (split_no_sep _ _ _ Hp Hin).
  - apply strip_incl in Hin. apply (split_incl _ _ _ _ Hp) in Hin.
    exact (split_no_sep _ _ _ Hl Hin).
Qed.

Lemma nth_in_record (r : list str) (i : nat) :
  i < length r -> In (nth i r []) r.
Proof. intros H. apply nth_In. exact H. Qed.

Lemma count_absent (c : char) (s : str) :
  ~ In c s -> count_occ N.eq_dec s c = 0.
Proof. apply count_occ_not_In. Qed.

Lemma count_padding (c : char) (n : nat) (s : str) :
  c <> space -> count_occ N.eq_dec (Py.format_width n s) c = count_occ N.eq_dec s c.
Proof.
  intros H. unfold Py.format_width.
  rewrite count_occ_app.
  pose proof (count_occ_repeat_neq N.eq_dec (n - length s) H) as E.
  unfold char in *. rewrite E. apply Nat.add_0_r.
Qed.

Lemma length_padding (n : nat) (s : str) :
  length (Py.format_width n s) = Nat.max n (length s).
Proof.
  unfold Py.format_width. rewrite length_app, repeat_length. lia.
Qed.

(** X9: every record of a parse is written to the summary as one line
    with exactly five bars: the four fields it shows hold no bar and no
    newline, so a row can neither gain a column nor break in two. *)
Theorem markdown_row_shape
  (content : str) (r : list str) (path : string) (old : str) (w : world) :
  In r (ParseBenchSummary.parse content) ->
  files w path = Some old ->
  exists text w',
    ParseBenchSummary.write_row path r w = Returned tt w' /\
    files w' path = Some (old ++ text ++ [nl]) /\
    count_occ N.eq_dec text pipe = 5 /\
    count_occ N.eq_dec text nl = 0.
Proof.
  intros Hr Hold. rewrite summary_parse_eq in Hr.
  assert (H4 : 4 <= length r).
  { pose proof (parse_four_fields content) as H.
    rewrite Forall_forall in H. apply H. exact Hr. }
  assert (Hw : file_written path old w w).
  { split; [exact Hold|]. split; reflexivity. }
  destruct (write_row_written path old r w w H4 Hw) as (w' & E & Hf & _).
  exists (lit "| " ++ nth 0 r [] ++ lit " | " ++ nth 1 r [] ++ lit " | " ++
          nth 2 r [] ++ lit " | " ++ nth 3 r [] ++ lit " |"), w'.
  split; [exact E|]. split.
  - rewrite Hf. unfold markdown_row. rewrite <- !app_assoc. reflexivity.
  - destruct (record_field_chars content r (nth 0 r []) Hr
                (nth_in_record r 0 ltac:(lia))) as [P0 N0].
    destruct (record_field_chars content r (nth 1 r []) Hr
                (nth_in_record r 1 ltac:(lia))) as [P1 N1].
    destruct (record_field_chars content r (nth 2 r []) Hr
                (nth_in_record r 2 ltac:(lia))) as [P2 N2].
    destruct (record_field_chars content r (nth 3 r []) Hr
                (nth_in_record r 3 ltac:(lia))) as [P3 N3].
    rewrite !count_occ_app.
    pose proof (count_absent _ _ P0) as C0. pose proof (count_absent _ _ P1) as C1.
    pose proof (count_absent _ _ P2) as C2. pose proof (count_absent _ _ P3) as C3.
    pose proof (count_absent _ _ N0) as D0. pose proof (count_absent _ _ N1) as D1.
    pose proof (count_absent _ _ N2) as D2. pose proof (count_absent _ _ N3) as D3.
    unfold str, char in *. rewrite C0, C1, C2, C3, D0, D1, D2, D3.
    split; reflexivity.
Qed.

Lemma markdown_row_shape_witness :
  exists text w',
    ParseBenchSummary.write_row "bench-summary.md"
      [lit "go"; lit "1"; lit "5"; lit "3"]
      {| files := set_file "bench-summary.md" (lit "x") (fun _ => None); stdout := [] |} =
      Returned tt w' /\
    files w' "bench-summary.md"%string = Some (lit "x" ++ text ++ [nl]) /\
    count_occ N.eq_dec text pipe = 5 /\
    count_occ N.eq_dec text nl = 0.
Proof.
  apply (markdown_row_shape (lit "Runtime Min" ++ [nl] ++ lit "| go | 1 | 5 | 3 |")).
  - vm_compute. left. reflexivity.
  - reflexivity.
Defined.

(** X10: every record of a parse is printed as one line with exactly five
    bars, never narrower than the header row of the table; it is as wide
    as the header row, so that the columns line up, exactly when the first
    field has at most 7 characters and the next three at most 5 each: a
    longer field is printed whole and pushes the row out. *)
Theorem console_row_shape (content : str) (r : list str) (w : world) :
  In r (ParseBenchOutput.parse content) ->
  let header := lit "| Runtime | Min   | Max   | Avg   |" in
  exists text,
    ParseBenchOutput.print_row r w =
      Returned tt {| files := files w; stdout := stdout w ++ text ++ [nl] |} /\
    count_occ N.eq_dec text pipe = 5 /\
    count_occ N.eq_dec text nl = 0 /\
    length header <= length text /\
    (length text = length header <->
     length (nth 0 r []) <= 7 /\ length (nth 1 r []) <= 5 /\
     length (nth 2 r []) <= 5 /\ length (nth 3 r []) <= 5).
Proof.
  intros Hr header.
  assert (H4 : 4 <= length r).
  { pose proof (parse_four_fields content) as H.
    rewrite Forall_forall in H. apply H. exact Hr. }
  exists (lit "| " ++ Py.format_width 7 (nth 0 r []) ++ lit " | " ++
          Py.format_width 5 (nth 1 r []) ++ lit " | " ++
          Py.format_width 5 (nth 2 r []) ++ lit " | " ++
          Py.format_width 5 (nth 3 r []) ++ lit " |").
  split.
  - rewrite (output_print_row_ok r w H4). unfold console_row.
    rewrite <- !app_assoc. reflexivity.
  - destruct (record_field_chars content r (nth 0 r []) Hr
                (nth_in_record r 0 ltac:(lia))) as [P0 N0].
    destruct (record_field_chars content r (nth 1 r []) Hr
                (nth_in_record r 1 ltac:(lia))) as [P1 N1].
    destruct (record_field_chars content r (nth 2 r []) Hr
                (nth_in_record r 2 ltac:(lia))) as [P2 N2].
    destruct (record_field_chars content r (nth 3 r []) Hr
                (nth_in_record r 3 ltac:(lia))) as [P3 N3].
    assert (Dp : pipe <> space) by discriminate.
    assert (Dn : nl <> space) by discriminate.
    rewrite !count_occ_app, !(count_padding _ _ _ Dp), !(count_padding _ _ _ Dn).
    pose proof (count_absent _ _ P0) as C0. pose proof (count_absent _ _ P1) as C1.
    pose proof (count_absent _ _ P2) as C2. pose proof (count_absent _ _ P3) as C3.
    pose proof (count_absent _ _ N0) as D0. pose proof (count_absent _ _ N1) as D1.
    pose proof (count_absent _ _ N2) as D2. pose proof (count_absent _ _ N3) as D3.
    unfold str, char in *. rewrite C0, C1, C2, C3, D0, D1, D2, D3.
    split; [reflexivity|]. split; [reflexivity|].
    rewrite !length_app, !length_padding.
    subst header. unfold str, char in *.
    assert (L0 : @length N (lit "| Runtime | Min   | Max   | Avg   |") = 35)
      by reflexivity.
    assert (L1 : @length N (lit "| ") = 2) by reflexivity.
    assert (L2 : @length N (lit " | ") = 3) by reflexivity.
    assert (L3 : @length N (lit " |") = 2) by reflexivity.
    rewrite L0, L1, L2, L3. lia.
Qed.

Lemma console_row_shape_witness :
  exists text,
    ParseBenchOutput.print_row [lit "go"; lit "1"; lit "5"; lit "3"] (world_with_log []) =
      Returned tt {| files := files (world_with_log []);
                     stdout := stdout (world_with_log []) ++ text ++ [nl] |} /\
    length text = 35.
Proof.
  destruct (console_row_shape (lit "Runtime Min" ++ [nl] ++ lit "| go | 1 | 5 | 3 |")
              [lit "go"; lit "1"; lit "5"; lit "3"] (world_with_log []))
    as (text & E & _ & _ & _ & Hw).
  - vm_compute. left. reflexivity.
  - exists text. split; [exact E|]. apply Hw. vm_compute. repeat split; lia.
Defined.

(** ** Blank lines at the end *)

Lemma scan_body_blank_results (st : scan_state) (b : str) :
  is_blank b = true ->
  scan_body st b = Break st \/ scan_body st b = Next st.
Proof.
  intros Hb. destruct (in_table st) eqn:Hst.
  - left. apply scan_body_blank; assumption.
  - right. unfold scan_body. rewrite (blank_not_header _ Hb), Hst. reflexivity.
Qed.

Lemma scan_flow_blanks (blanks : list str) (st : scan_state) :
  Forall (fun b => is_blank b = true) blanks ->
  flow_state (scan_flow blanks st) = st.
Proof.
  intros H. induction H as [|b blanks Hb _ IH]; [reflexivity|].
  unfold scan_flow in *. simpl.
  destruct (scan_body_blank_results st b Hb) as [-> | ->]; [reflexivity | exact IH].
Qed.

Lemma scan_flow_trailing_blanks (lines blanks : list str) :
  Forall (fun b => is_blank b = true) blanks ->
  flow_state (scan_flow (lines ++ blanks) init_state) =
  flow_state (scan_flow lines init_state).
Proof.
  intros H. unfold scan_flow. rewrite for_in_flow_app.
  destruct (for_in_flow scan_body lines init_state) as [st|st]; [|reflexivity].
  apply (scan_flow_blanks blanks st H).
Qed.

Lemma split_final_sep (sep : char) (s : str) :
  Py.split sep (s ++ [sep]) = Py.split sep s ++ [[]].
Proof.
  induction s as [|c s IH]; simpl.
  - rewrite N.eqb_refl. reflexivity.
  - destruct (N.eqb c sep); [rewrite IH; reflexivity|].
    rewrite IH. destruct (Py.split sep s) as [|p ps] eqn:E.
    + exfalso. exact (split_nonempty sep s E).
    + reflexivity.
Qed.

(** X11: blank lines at the end of the input change nothing; in
    particular a log parses to the same records with or without a final
    newline. *)
Theorem trailing_blank_lines_ignored (content : str) (lines blanks : list str) :
  Forall (fun b => is_blank b = true) blanks ->
  ParseBenchOutput.scan (lines ++ blanks) = ParseBenchOutput.scan lines /\
  ParseBenchSummary.scan (lines ++ blanks) = ParseBenchSummary.scan lines /\
  ParseBenchOutput.parse (content ++ [nl]) = ParseBenchOutput.parse content /\
  ParseBenchSummary.parse (content ++ [nl]) = ParseBenchSummary.parse content.
Proof.
  intros H.
  assert (E : ParseBenchOutput.parse (content ++ [nl]) = ParseBenchOutput.parse content).
  { unfold ParseBenchOutput.parse. simpl. rewrite split_final_sep, !output_scan_eq.
    rewrite scan_flow_trailing_blanks; [reflexivity|]. repeat constructor. }
  split; [|split; [|split]].
  - rewrite !output_scan_eq, (scan_flow_trailing_blanks lines blanks H). reflexivity.
  - rewrite !summary_scan_eq, (scan_flow_trailing_blanks lines blanks H). reflexivity.
  - exact E.
  - rewrite !summary_parse_eq. exact E.
Qed.

Lemma trailing_blank_lines_ignored_witness :
  ParseBenchOutput.scan ([lit "Runtime Min"; lit "a|b|c|d"] ++ [[]; lit "  "]) =
  ParseBenchOutput.scan [lit "Runtime Min"; lit "a|b|c|d"].
Proof.
  refine (proj1 (trailing_blank_lines_ignored []
            [lit "Runtime Min"; lit "a|b|c|d"] [[]; lit "  "] _)).
  repeat constructor.
Defined.

(** ** Whitespace around a line *)

Section DropWhileApp.
Variable A : Type.
Variable p : A -> bool.

Lemma dropwhile_app_all (a s : list A) :
  forallb p a = true -> Py.dropwhile p (a ++ s) = Py.dropwhile p s.
Proof.
  induction a as [|c a IH]; simpl; [reflexivity|].
  rewrite andb_true_iff. intros [Hc Ha]. rewrite Hc. exact (IH Ha).
Qed.

Lemma dropwhile_app_some (s b : list A) :
  Py.dropwhile p s <> [] -> Py.dropwhile p (s ++ b) = Py.dropwhile p s ++ b.
Proof.
  induction s as [|c s IH]; simpl; [congruence|].
  destruct (p c); [exact IH | reflexivity].
Qed.

Lemma dropwhile_end_app_all (s b : list A) :
  forallb p b = true -> Py.dropwhile_end p (s ++ b) = Py.dropwhile_end p s.
Proof.
  intros Hb. induction s as [|c s IH]; simpl.
  - apply dropwhile_end_nil. exact Hb.
  - rewrite IH. reflexivity.
Qed.
End DropWhileApp.

(** Whitespace before and after a string does not change what it strips
    to. *)
Lemma strip_padded (a s b : str) :
  forallb Py.isspace a = true -> forallb Py.isspace b = true ->
  Py.strip (a ++ s ++ b) = Py.strip s.
Proof.
  intros Ha Hb. unfold Py.strip, Py.rstrip, Py.lstrip.
  rewrite (dropwhile_app_all _ Py.isspace a (s ++ b) Ha).
  destruct (Py.dropwhile Py.isspace s) as [|c t] eqn:E.
  - apply dropwhile_nil in E.
    rewrite (dropwhile_app_all _ Py.isspace s b E).
    apply dropwhile_nil in Hb. rewrite Hb. reflexivity.
  - rewrite dropwhile_app_some by (rewrite E; discriminate).
    rewrite E. apply dropwhile_end_app_all. exact Hb.
Qed.




Lemma split_app_left (sep : char) (a s : str) :
  ~ In sep a ->
  Py.split sep (a ++ s) =
  match Py.split sep s with
  | p :: ps => (a ++ p) :: ps
  | [] => [a]
  end.
Proof.
  induction a as [|c a IH]; intros Ha.
  - simpl. destruct (Py.split sep s) eqn:E; [|reflexivity].
    exfalso. exact (split_nonempty sep s E).
  - simpl. destruct (N.eqb c sep) eqn:E.
    + apply N.eqb_eq in E. subst c. exfalso. apply Ha. left. reflexivity.
    + rewrite IH by (intros H; apply Ha; right; exact H).
      destruct (Py.split sep s); reflexivity.
Qed.


Lemma map_filter_comm {A B : Type} (f : A -> B) (g : B -> bool) (l : list A) :
  List.map f (List.filter (fun x => g (f x)) l) = List.filter g (List.map f l).
Proof.
  induction l as [|x l IH]; simpl; [reflexivity|].
  destruct (g (f x)); simpl; rewrite IH; reflexivity.
Qed.

Lemma ws_no_pipe (a : str) : forallb Py.isspace a = true -> ~ In pipe a.
Proof.
  intros H Hin. rewrite forallb_forall in H. apply H in Hin. discriminate.
Qed.






(** ** A growing log *)

Lemma scan_body_grows (st : scan_state) (l : str) :
  exists extra, results (flow_state (scan_body st l)) = results st ++ extra.
Proof.
  unfold scan_body.
  destruct (is_header l); [exists []; simpl; rewrite app_nil_r; reflexivity|].
  destruct (in_table st && is_candidate l).
  - destruct (guard (fields l)); [exists [fields l]; reflexivity|].
    exists []. simpl. rewrite app_nil_r. reflexivity.
  - destruct (in_table st && is_blank l); exists []; simpl; rewrite app_nil_r;
      reflexivity.
Qed.

Lemma scan_flow_grows (lines : list str) (st : scan_state) :
  exists extra, results (flow_state (scan_flow lines st)) = results st ++ extra.
Proof.
  revert st; induction lines as [|l lines IH]; intros st.
  - exists []. simpl. rewrite app_nil_r. reflexivity.
  - destruct (scan_body_grows st l) as (e1 & E1).
    unfold scan_flow in *. simpl.
    destruct (scan_body st l) as [st'|st']; simpl in E1.
    + destruct (IH st') as (e2 & E2). exists (e1 ++ e2).
      rewrite E2, E1, app_assoc. reflexivity.
    + exists e1. exact E1.
Qed.

(** X13: lines added at the end of a log never take a record away or change
    one: the records of the longer log start with the records of the
    shorter one, in both scripts. *)
Theorem records_kept_when_log_grows (lines more : list str) :
  exists extra,
    ParseBenchOutput.scan (lines ++ more) = ParseBenchOutput.scan lines ++ extra /\
    ParseBenchSummary.scan (lines ++ more) = ParseBenchSummary.scan lines ++ extra.
Proof.
  assert (H : exists extra,
             results (flow_state (scan_flow (lines ++ more) init_state)) =
             results (flow_state (scan_flow lines init_state)) ++ extra).
  { unfold scan_flow. rewrite for_in_flow_app.
    destruct (for_in_flow scan_body lines init_state) as [st|st].
    - apply (scan_flow_grows more st).
    - exists []. rewrite app_nil_r. reflexivity. }
  destruct H as (extra & E). exists extra.
  split; [rewrite !output_scan_eq | rewrite !summary_scan_eq]; exact E.
Qed.

(** ** Rendered rows read back *)

Lemma dropwhile_end_idem {A : Type} (p : A -> bool) (s : list A) :
  Py.dropwhile_end p (Py.dropwhile_end p s) = Py.dropwhile_end p s.
Proof.
  induction s as [|c s IH]; simpl; [reflexivity|].
  destruct (Py.dropwhile_end p s) as [|d t] eqn:E.
  - destruct (p c) eqn:Ec; simpl; [reflexivity|]. rewrite Ec. reflexivity.
  - simpl in *. rewrite IH. reflexivity.
Qed.

Lemma strip_idem (s : str) : Py.strip (Py.strip s) = Py.strip s.
Proof.
  destruct (Py.strip s) as [|c t] eqn:E; [reflexivity|].
  pose proof (strip_head _ _ _ E) as Hc.
  unfold Py.strip at 1. unfold Py.lstrip. simpl. rewrite Hc.
  rewrite <- E. unfold Py.strip, Py.rstrip. apply dropwhile_end_idem.
Qed.

Lemma split_sep_cons (sep : char) (a s : str) :
  ~ In sep a -> Py.split sep (a ++ sep :: s) = a :: Py.split sep s.
Proof.
  intros Ha. rewrite (split_app_left sep a (sep :: s) Ha).
  simpl. rewrite N.eqb_refl. rewrite app_nil_r. reflexivity.
Qed.

(** The fields of a line of four cells between bars. *)
Lemma fields_of_cells (c0 c1 c2 c3 : str) :
  ~ In pipe c0 -> ~ In pipe c1 -> ~ In pipe c2 -> ~ In pipe c3 ->
  fields (pipe :: c0 ++ pipe :: c1 ++ pipe :: c2 ++ pipe :: c3 ++ [pipe]) =
  List.filter (fun q => Py.truthy q)
    [Py.strip c0; Py.strip c1; Py.strip c2; Py.strip c3].
Proof.
  intros H0 H1 H2 H3. unfold fields.
  rewrite (map_filter_comm Py.strip (fun q => Py.truthy q)).
  change (Py.split pipe (pipe :: c0 ++ pipe :: c1 ++ pipe :: c2 ++ pipe :: c3 ++ [pipe]))
    with ([] :: Py.split pipe (c0 ++ pipe :: c1 ++ pipe :: c2 ++ pipe :: c3 ++ [pipe])).
  rewrite (split_sep_cons pipe c0 _ H0), (split_sep_cons pipe c1 _ H1),
          (split_sep_cons pipe c2 _ H2).
  change (c3 ++ [pipe]) with (c3 ++ pipe :: []).
  rewrite (split_sep_cons pipe c3 _ H3). reflexivity.
Qed.

(** A field of a record is not empty, holds no bar and strips to itself. *)
Lemma record_field_clean (content : str) (r : list str) (f : str) :
  In r (ParseBenchOutput.parse content) -> In f r ->
  f <> [] /\ ~ In pipe f /\ Py.strip f = f.
Proof.
  intros Hr Hf. apply parse_records in Hr as (line & _ & -> & _).
  apply fields_spec in Hf as (p & Hp & -> & Hne).
  split; [exact Hne|]. split; [|apply strip_idem].
  intros Hin. apply strip_incl in Hin. exact (split_no_sep _ _ _ Hp Hin).
Qed.

Lemma cell_no_pipe (a f b : str) :
  forallb Py.isspace a = true -> forallb Py.isspace b = true -> ~ In pipe f ->
  ~ In pipe (a ++ f ++ b).
Proof.
  intros Ha Hb Hf Hin. apply in_app_or in Hin as [Hin|Hin].
  - exact (ws_no_pipe a Ha Hin).
  - apply in_app_or in Hin as [Hin|Hin]; [exact (Hf Hin) | exact (ws_no_pipe b Hb Hin)].
Qed.

Lemma cell_strip (a f b : str) :
  forallb Py.isspace a = true -> forallb Py.isspace b = true ->
  Py.strip f = f -> Py.strip (a ++ f ++ b) = f.
Proof. intros Ha Hb Hf. rewrite (strip_padded a f b Ha Hb). exact Hf. Qed.

Lemma forallb_repeat_space (n : nat) : forallb Py.isspace (repeat space n) = true.
Proof. induction n as [|n IH]; [reflexivity | exact IH]. Qed.

Lemma forallb_isspace_app (a b : str) :
  forallb Py.isspace a = true -> forallb Py.isspace b = true ->
  forallb Py.isspace (a ++ b) = true.
Proof. intros Ha Hb. rewrite forallb_app, Ha, Hb. reflexivity. Qed.

(** The fields of a row of four clean fields, each between some
    whitespace, are the four fields. *)
Lemma fields_of_row (f0 f1 f2 f3 a0 b0 a1 b1 a2 b2 a3 b3 : str) :
  (f0 <> [] /\ ~ In pipe f0 /\ Py.strip f0 = f0) ->
  (f1 <> [] /\ ~ In pipe f1 /\ Py.strip f1 = f1) ->
  (f2 <> [] /\ ~ In pipe f2 /\ Py.strip f2 = f2) ->
  (f3 <> [] /\ ~ In pipe f3 /\ Py.strip f3 = f3) ->
  forallb Py.isspace a0 = true -> forallb Py.isspace b0 = true ->
  forallb Py.isspace a1 = true -> forallb Py.isspace b1 = true ->
  forallb Py.isspace a2 = true -> forallb Py.isspace b2 = true ->
  forallb Py.isspace a3 = true -> forallb Py.isspace b3 = true ->
  fields (pipe :: (a0 ++ f0 ++ b0) ++ pipe :: (a1 ++ f1 ++ b1) ++
          pipe :: (a2 ++ f2 ++ b2) ++ pipe :: (a3 ++ f3 ++ b3) ++ [pipe]) =
  [f0; f1; f2; f3].
Proof.
  intros (N0 & P0 & S0) (N1 & P1 & S1) (N2 & P2 & S2) (N3 & P3 & S3)
         A0 B0 A1 B1 A2 B2 A3 B3.
  rewrite fields_of_cells by (apply cell_no_pipe; assumption).
  rewrite !cell_strip by assumption.
  destruct f0; [congruence|]. destruct f1; [congruence|].
  destruct f2; [congruence|]. destruct f3; [congruence|]. reflexivity.
Qed.

(** X14: the row either script renders for a record of a parse reads back,
    through the scripts' own field splitting, as the record's first four
    fields: the bars and the padding of the console table and of the
    markdown table lose nothing and add nothing. *)
Theorem rendered_row_reads_back (content : str) (r : list str) (w : world) :
  In r (ParseBenchOutput.parse content) ->
  exists console markdown w',
    ParseBenchOutput.print_row r w =
      Returned tt {| files := files w; stdout := stdout w ++ console ++ [nl] |} /\
    ParseBenchSummary.write_row "bench-summary.md" r
      {| files := set_file "bench-summary.md" [] (files w); stdout := stdout w |} =
      Returned tt w' /\
    files w' "bench-summary.md"%string = Some (markdown ++ [nl]) /\
    fields console = firstn 4 r /\
    fields markdown = firstn 4 r.
Proof.
  intros Hr.
  assert (H4 : 4 <= length r).
  { pose proof (parse_four_fields content) as H.
    rewrite Forall_forall in H. apply H. exact Hr. }
  pose proof (record_field_clean content r (nth 0 r []) Hr
                (nth_in_record r 0 ltac:(lia))) as C0.
  pose proof (record_field_clean content r (nth 1 r []) Hr
                (nth_in_record r 1 ltac:(lia))) as C1.
  pose proof (record_field_clean content r (nth 2 r []) Hr
                (nth_in_record r 2 ltac:(lia))) as C2.
  pose proof (record_field_clean content r (nth 3 r []) Hr
                (nth_in_record r 3 ltac:(lia))) as C3.
  assert (F : firstn 4 r = [nth 0 r []; nth 1 r []; nth 2 r []; nth 3 r []]).
  { destruct r as [|x0 [|x1 [|x2 [|x3 r']]]]; simpl in H4; try lia. reflexivity. }
  assert (Hw : file_written "bench-summary.md" []
                 {| files := set_file "bench-summary.md" [] (files w); stdout := stdout w |}
                 {| files := set_file "bench-summary.md" [] (files w); stdout := stdout w |}).
  { split; [apply set_file_same|]. split; reflexivity. }
  destruct (write_row_written "bench-summary.md" [] r _ _ H4 Hw) as (w' & E & Hf & _).
  exists (pipe :: ([space] ++ nth 0 r [] ++ (repeat space (7 - length (nth 0 r [])) ++ [space])) ++
          pipe :: ([space] ++ nth 1 r [] ++ (repeat space (5 - length (nth 1 r [])) ++ [space])) ++
          pipe :: ([space] ++ nth 2 r [] ++ (repeat space (5 - length (nth 2 r [])) ++ [space])) ++
          pipe :: ([space] ++ nth 3 r [] ++ (repeat space (5 - length (nth 3 r [])) ++ [space])) ++
          [pipe]).
  exists (pipe :: ([space] ++ nth 0 r [] ++ [space]) ++
          pipe :: ([space] ++ nth 1 r [] ++ [space]) ++
          pipe :: ([space] ++ nth 2 r [] ++ [space]) ++
          pipe :: ([space] ++ nth 3 r [] ++ [space]) ++ [pipe]).
  exists w'.
  split; [|split; [exact E|split; [|split]]].
  - rewrite (output_print_row_ok r w H4). unfold console_row, Py.format_width.
    change (lit "| ") with [pipe; space]. change (lit " | ") with [space; pipe; space].
    change (lit " |") with [space; pipe].
    repeat (rewrite <- ?app_assoc; cbn [app]). reflexivity.
  - rewrite Hf. unfold markdown_row.
    change (lit "| ") with [pipe; space]. change (lit " | ") with [space; pipe; space].
    change (lit " |") with [space; pipe].
    repeat (rewrite <- ?app_assoc; cbn [app]). reflexivity.
  - rewrite F. apply fields_of_row; try assumption; try reflexivity;
      apply forallb_isspace_app; (apply forallb_repeat_space || reflexivity).
  - rewrite F. apply fields_of_row; try assumption; reflexivity.
Qed.

Lemma rendered_row_reads_back_witness :
  exists console,
    ParseBenchOutput.print_row [lit "go"; lit "1"; lit "5"; lit "3"; lit "x"]
      (world_with_log []) =
      Returned tt {| files := files (world_with_log []);
                     stdout := stdout (world_with_log []) ++ console ++ [nl] |} /\
    fields console = [lit "go"; lit "1"; lit "5"; lit "3"].
Proof.
  destruct (rendered_row_reads_back
              (lit "Runtime Min" ++ [nl] ++ lit "| go | 1 | 5 | 3 | x |")
              [lit "go"; lit "1"; lit "5"; lit "3"; lit "x"] (world_with_log []))
    as (console & _ & _ & E & _ & _ & Hc & _).
  - vm_compute. left. reflexivity.
  - exists console. split; [exact E | exact Hc].
Defined.
